(** * sdserver.cli: the command registry and launch orchestration of the
    SD server command line, embedded from [src/sdserver/cli.py].

    Conventions of the embedding.
    - A Python [str] is a [string]; each [ascii] stands for one code point
      below 256.  A tuple or list of [str] is a [list string].
    - A Python [int] is a [Z]; an index produced by [enumerate] is a [nat].
    - A call that may raise returns a [result]; code that also prints,
      reads the clock or sends telemetry runs in the monad [M] over a
      [world].
    - Collaborators that live outside [cli.py] (click, bentoml, the
      [utils] and [analytics] modules) are Section variables. *)

From Stdlib Require Import Ascii String ZArith QArith.
From stdpp Require Import base option list strings gmap pretty.

Open Scope string_scope.

(** ** Python string primitives *)

Module PyStr.

(** The double quote character, needed inside the f-strings of
    [model_start]. *)
Definition dquote : string := String (ascii_of_nat 34) EmptyString.

(** [s.startswith(p)] *)
Fixpoint startswith (s p : string) : bool :=
  match p, s with
  | EmptyString, _ => true
  | String _ _, EmptyString => false
  | String a p', String b s' => if Ascii.eqb a b then startswith s' p' else false
  end.

(** [c in s] for a one-character [c] *)
Fixpoint contains_char (c : ascii) (s : string) : bool :=
  match s with
  | EmptyString => false
  | String a s' => if Ascii.eqb a c then true else contains_char c s'
  end.

(** Code points below 256 for which [str.isspace] holds: TAB, LF, VT, FF,
    CR, FS, GS, RS, US, SPACE, NEL and NBSP. *)
Definition isspace (c : ascii) : bool :=
  let n := nat_of_ascii c in
  ((9 <=? n)%nat && (n <=? 13)%nat) || ((28 <=? n)%nat && (n <=? 32)%nat)
  || (n =? 133)%nat || (n =? 160)%nat.

(** Cut [s] at every character satisfying [sep]; the pieces between two
    cuts may be empty, and there is always at least one piece. *)
Fixpoint fields (sep : ascii -> bool) (s : string) : list string :=
  match s with
  | EmptyString => [EmptyString]
  | String c s' =>
      if sep c then EmptyString :: fields sep s'
      else match fields sep s' with
           | w :: ws => String c w :: ws
           | [] => [String c EmptyString]
           end
  end.

(** Truthiness of a [str]: [bool(s)] *)
Definition truthy (s : string) : bool :=
  match s with EmptyString => false | String _ _ => true end.

(** [s.split(",")] *)
Definition split_comma (s : string) : list string :=
  fields (Ascii.eqb ",") s.

(** [s.split()]: cut at runs of whitespace, no empty piece is kept. *)
Definition split_whitespace (s : string) : list string :=
  List.filter truthy (fields isspace s).

(** [sep.join(parts)] *)
Fixpoint join (sep : string) (parts : list string) : string :=
  match parts with
  | [] => EmptyString
  | [p] => p
  | p :: rest => p ++ sep ++ join sep rest
  end.

(** [str(n)] for an [int] *)
Definition str_int (n : Z) : string := pretty n.

(** [str(i)] for an index *)
Definition str_index (i : nat) : string := pretty i.

End PyStr.

(** ** Exceptions and results *)

(** The exception classes that [cli.py] raises or catches.  Every class
    but [KeyboardInterrupt] and [OtherBaseException] derives from
    [Exception].  The [__cause__] that [raise ... from err] attaches is
    not kept. *)
Inductive exn : Type :=
| SDServerException (message : string)
| RuntimeError (message : string)
| TypeError (message : string)
| NameError (name : string)
| AssertionError (message : string)
| KeyboardInterrupt
| ClickException (message : string)
| BadArgumentUsage (message : string)
| OtherException (class_name : string)
| OtherBaseException (class_name : string).

(** [isinstance(e, Exception)] *)
Definition is_Exception (e : exn) : bool :=
  match e with
  | KeyboardInterrupt | OtherBaseException _ => false
  | _ => true
  end.

(** [isinstance(e, KeyboardInterrupt)] *)
Definition is_KeyboardInterrupt (e : exn) : bool :=
  match e with KeyboardInterrupt => true | _ => false end.

(** [type(e).__name__] *)
Definition type_name (e : exn) : string :=
  match e with
  | SDServerException _ => "SDServerException"
  | RuntimeError _ => "RuntimeError"
  | TypeError _ => "TypeError"
  | NameError _ => "NameError"
  | AssertionError _ => "AssertionError"
  | KeyboardInterrupt => "KeyboardInterrupt"
  | ClickException _ => "ClickException"
  | BadArgumentUsage _ => "BadArgumentUsage"
  | OtherException n => n
  | OtherBaseException n => n
  end.

Inductive result (A : Type) : Type :=
| Ok (a : A)
| Raise (e : exn).
Arguments Ok {A} a.
Arguments Raise {A} e.

(** ** NargsOptions *)

Module NargsOptions.

(** The keyword arguments of the constructor that matter here: [nargs]
    when the caller passed it, and the rest, which goes to the parent
    class untouched. *)
Record attrs (Rest : Type) : Type := {
  nargs : option Z;
  rest : Rest;
}.
Arguments nargs {Rest} _.
Arguments rest {Rest} _.
Arguments Build_attrs {Rest} _ _.

(** The instance after [__init__]: the part built by the parent class and
    the two hooks, both still [None]. *)
Record t (Parent Hook Opt : Type) : Type := {
  parent : Parent;
  _prev_parser_process : option Hook;
  _nargs_parser : option Opt;
}.
Arguments parent {Parent Hook Opt} _.
Arguments _prev_parser_process {Parent Hook Opt} _.
Arguments _nargs_parser {Parent Hook Opt} _.
Arguments Build_t {Parent Hook Opt} _ _ _.

Section Init.
Context {Rest Parent Hook Opt : Type}.
(** The constructor of the parent class [cog.GroupedOption], called with
    [nargs] already popped from its keyword arguments. *)
Variable super_init : Rest -> result Parent.

(** [NargsOptions.__init__] *)
Definition init (a : attrs Rest) : result (t Parent Hook Opt) :=
  let nargs := default (-1)%Z a.(nargs) in
  if negb (nargs =? -1)%Z then
    Raise (SDServerException
             ("'nargs' is set, and must be -1 instead of " ++ PyStr.str_int nargs))
  else
    match super_init a.(rest) with
    | Raise e => Raise e
    | Ok p => Ok {| parent := p; _prev_parser_process := None; _nargs_parser := None |}
    end.
End Init.

(** The inner [for prefix in prefixes] loop of [_parser]: [done] becomes
    [True] as soon as the first remaining token starts with one prefix,
    and is never reset. *)
Definition scan_prefixes (prefixes : list string) (tok : string) (done : bool) : bool :=
  fold_left (fun d prefix => if PyStr.startswith tok prefix then true else d) prefixes done.

(** The [while state.rargs and not done] loop of [_parser], entered with
    [done = False]: [value] is the list collected so far, the result is
    the final [value] and what is left of [state.rargs]. *)
Fixpoint grab (prefixes : list string) (value rargs : list string)
  : list string * list string :=
  match rargs with
  | [] => (value, [])
  | tok :: rargs' =>
      if scan_prefixes prefixes tok false then (value, rargs)
      else grab prefixes (value ++ [tok])%list rargs'
  end.

Section Parser.
Context {State Out : Type}.
(** The remaining arguments of a [click.parser.ParsingState]. *)
Variable get_rargs : State -> list string.
Variable set_rargs : list string -> State -> State.
(** The [process] method the option parser had before the hook was
    installed. *)
Variable prev_parser_process : list string -> State -> Out.

(** [_parser(value, state)], installed as [our_parser.process]. *)
Definition _parser (prefixes : list string) (value : string) (state : State) : Out :=
  let '(value, rargs) := grab prefixes [value] (get_rargs state) in
  prev_parser_process value (set_rargs rargs state).
End Parser.

End NargsOptions.

(** ** parse_device_callback *)

(** What click hands to the callback of [--device]. *)
Inductive click_value : Type :=
| VNone
| VTuple (items : list string)
| VOther.

(** What the callback returns: [None], the report of [gpu_count()], or a
    tuple of tokens. *)
Inductive device (gpu_report : Type) : Type :=
| DeviceNone
| DeviceAll (report : gpu_report)
| DeviceTuple (ids : list string).
Arguments DeviceNone {gpu_report}.
Arguments DeviceAll {gpu_report} report.
Arguments DeviceTuple {gpu_report} ids.

(** One turn of [for v in value]: what is added to [parsed]. *)
Definition parse_token (v : string) : list string :=
  if String.eqb v "," then []
  else if PyStr.contains_char "," v then PyStr.split_comma v
  else PyStr.split_whitespace v.

(** The [for v in value] loop, entered with [parsed]. *)
Definition parse_tokens (parsed value : list string) : list string :=
  fold_left (fun parsed v => (parsed ++ parse_token v)%list) value parsed.

Section Device.
Context {gpu_report : Type}.
(** [utils.gpu_count()] *)
Variable gpu_count : gpu_report.
(** [str(params)] *)
Variable params_repr : string.

Definition parse_device_callback (value : click_value) : result (device gpu_report) :=
  match value with
  | VNone => Ok DeviceNone
  | VOther => Raise (RuntimeError (params_repr ++ " only accept multiple values."))
  | VTuple value =>
      if (length value =? 1)%nat && String.eqb (nth 0 value EmptyString) "all"
      then Ok (DeviceAll gpu_count)
      else Ok (DeviceTuple (List.filter PyStr.truthy (parse_tokens [] value)))
  end.
End Device.

(** ** The world a command runs in *)

(** [analytics.OpenllmCliEvent]: the two fields given to the constructor
    and the three the telemetry layer assigns. *)
Record CliEvent : Type := {
  cmd_group : string;
  cmd_name : string;
  duration_in_ms : option Q;
  error_type : option string;
  return_code : option Z;
}.

Definition set_duration_in_ms (d : Q) (ev : CliEvent) : CliEvent :=
  {| cmd_group := ev.(cmd_group); cmd_name := ev.(cmd_name);
     duration_in_ms := Some d;
     error_type := ev.(error_type); return_code := ev.(return_code) |}.

Definition set_error_type (n : string) (ev : CliEvent) : CliEvent :=
  {| cmd_group := ev.(cmd_group); cmd_name := ev.(cmd_name);
     duration_in_ms := ev.(duration_in_ms);
     error_type := Some n; return_code := ev.(return_code) |}.

Definition set_return_code (c : Z) (ev : CliEvent) : CliEvent :=
  {| cmd_group := ev.(cmd_group); cmd_name := ev.(cmd_name);
     duration_in_ms := ev.(duration_in_ms);
     error_type := ev.(error_type); return_code := Some c |}.

(** What the code can observe or change outside its own variables: the
    lines written through [_echo] (with their colour), the warnings
    logged, the events handed to [analytics.track], the reading of
    [time.time_ns], the global quiet and debug modes, and the number of
    [server.start] calls made so far. *)
Record world : Type := {
  echoed : list (option string * string);
  warned : list string;
  tracked : list CliEvent;
  now : Z;
  quiet_mode : bool;
  debug_mode : bool;
  servers_started : nat;
}.

(** The world when the process starts, the clock at [t0]. *)
Definition initial_world (t0 : Z) : world :=
  {| echoed := []; warned := []; tracked := []; now := t0;
     quiet_mode := false; debug_mode := false; servers_started := 0 |}.

Definition M (A : Type) : Type := world -> result A * world.

Definition ret {A} (a : A) : M A := fun w => (Ok a, w).

Definition raise {A} (e : exn) : M A := fun w => (Raise e, w).

Definition bind {A B} (m : M A) (k : A -> M B) : M B :=
  fun w => match m w with
           | (Ok a, w') => k a w'
           | (Raise e, w') => (Raise e, w')
           end.

Declare Scope py_scope.
Delimit Scope py_scope with py.
Notation "x <- m ;; k" := (bind m (fun x => k))
  (at level 100, m at next level, right associativity) : py_scope.
Notation "m ;; k" := (bind m (fun _ => k))
  (at level 100, right associativity) : py_scope.

(** [_echo(text, fg=fg)]: the colour is dropped in debug mode. *)
Definition _echo (text : string) (fg : string) : M unit :=
  fun w =>
    let fg := if w.(debug_mode) then None else Some fg in
    (Ok tt,
     {| echoed := (w.(echoed) ++ [(fg, text)])%list; warned := w.(warned);
        tracked := w.(tracked); now := w.(now); quiet_mode := w.(quiet_mode);
        debug_mode := w.(debug_mode); servers_started := w.(servers_started) |}).

(** [logger.warning(text)] *)
Definition warning (text : string) : M unit :=
  fun w =>
    (Ok tt,
     {| echoed := w.(echoed); warned := (w.(warned) ++ [text])%list;
        tracked := w.(tracked); now := w.(now); quiet_mode := w.(quiet_mode);
        debug_mode := w.(debug_mode); servers_started := w.(servers_started) |}).

(** [analytics.track(event)] *)
Definition track (ev : CliEvent) : M unit :=
  fun w =>
    (Ok tt,
     {| echoed := w.(echoed); warned := w.(warned);
        tracked := (w.(tracked) ++ [ev])%list; now := w.(now);
        quiet_mode := w.(quiet_mode); debug_mode := w.(debug_mode);
        servers_started := w.(servers_started) |}).

(** [time.time_ns()] *)
Definition time_ns : M Z := fun w => (Ok w.(now), w).

(** [set_quiet_mode(True)] *)
Definition set_quiet_mode : M unit :=
  fun w =>
    (Ok tt,
     {| echoed := w.(echoed); warned := w.(warned); tracked := w.(tracked);
        now := w.(now); quiet_mode := true; debug_mode := w.(debug_mode);
        servers_started := w.(servers_started) |}).

(** [set_debug_mode(True)] *)
Definition set_debug_mode : M unit :=
  fun w =>
    (Ok tt,
     {| echoed := w.(echoed); warned := w.(warned); tracked := w.(tracked);
        now := w.(now); quiet_mode := w.(quiet_mode); debug_mode := true;
        servers_started := w.(servers_started) |}).

(** [try: body / except Exception as e: handler(e)]: only an instance of
    [Exception] reaches the handler, anything else keeps propagating. *)
Definition try_except_Exception {A} (body : M A) (handler : exn -> M A) : M A :=
  fun w => match body w with
           | (Ok a, w') => (Ok a, w')
           | (Raise e, w') =>
               if is_Exception e then handler e w' else (Raise e, w')
           end.

(** [str(x)] of a name that may be [None] *)
Definition str_name (name : option string) : string := default "None" name.

(** [click.style(text, fg=red)]: the escape sequence of the colour, the
    text, the reset sequence. *)
Definition click_style_red (text : string) : string :=
  let esc := String (ascii_of_nat 27) EmptyString in
  esc ++ "[31m" ++ text ++ esc ++ "[0m".

(** ** SDServerCommandGroup *)

Module SDServerCommandGroup.

Section Layers.
Context {A : Type}.
(** [analytics.OpenllmCliEvent(cmd_group=..., cmd_name=...)] *)
Variable OpenllmCliEvent : string -> string -> CliEvent.

(** The wrapper built by [common_params(f)], applied to the two flags it
    takes off the keyword arguments.  [configure_logging] acts on the
    logging module only. *)
Definition common_params (f : M A) (quiet debug : bool) : M A :=
  ((if quiet then
      (set_quiet_mode ;;
       if debug then warning "'--quiet' passed; ignoring '--verbose/--debug'"
       else ret tt)
    else if debug then set_debug_mode
    else ret tt) ;;
   f)%py.

(** The wrapper built by [usage_tracking(func, group, name=command_name)],
    applied to the flag it takes off the keyword arguments.  The context
    manager [analytics.set_bentoml_tracking] acts on the environment of
    bentoml only. *)
Definition usage_tracking (func : M A) (group_name : option string)
    (command_name : string) (do_not_track : bool) : M A :=
  if do_not_track then func
  else
    (start_time <- time_ns ;;
     match group_name with
     | None => raise (AssertionError "group.name should not be None")
     | Some group_name =>
         let event := OpenllmCliEvent group_name command_name in
         try_except_Exception
           (return_value <- func ;;
            t <- time_ns ;;
            let event := set_duration_in_ms (Qmake (t - start_time) 1000000) event in
            track event ;;
            ret return_value)
           (fun e =>
              t <- time_ns ;;
              let event := set_duration_in_ms (Qmake (t - start_time) 1000000) event in
              let event := set_error_type (type_name e) event in
              let event := set_return_code (if is_KeyboardInterrupt e then 2 else 1) event in
              track event ;;
              raise e)
     end)%py.

(** The wrapper built by [exception_handling(func, group,
    name=command_name)]; a swallowed interrupt makes it return [None]. *)
Definition exception_handling (func : M A) (group_name : option string)
    (command_name : string) : M (option A) :=
  fun w =>
    match func w with
    | (Ok a, w') => (Ok (Some a), w')
    | (Raise (SDServerException message), w') =>
        (Raise (ClickException
                  (click_style_red
                     ("[" ++ str_name group_name ++ "] '" ++ command_name
                      ++ "' failed: " ++ message))), w')
    | (Raise KeyboardInterrupt, w') => (Ok None, w')
    | (Raise e, w') => (Raise e, w')
    end.

(** The callback of the command that the decorator [command] registers
    for [f]: [f] inside the three layers. *)
Definition command (f : M A) (group_name : option string) (name : string)
    (quiet debug do_not_track : bool) : M (option A) :=
  exception_handling
    (usage_tracking (common_params f quiet debug) group_name name do_not_track)
    group_name name.
End Layers.

(** A click context, as far as [get_command] reads it: the name of the
    command it belongs to. *)
Record context : Type := { command_name : option string }.

Section Registry.
Context {Command : Type}.
(** [self._aliases] *)
Variable _aliases : gmap string string.
(** The module-level [_cached_http] *)
Variable _cached_http : gmap string Command.
(** [get_command] of the parent class [BentoMLCommandGroup] *)
Variable super_get_command : context -> string -> result (option Command).

(** Modelled from the spec: [resolve_alias] of [BentoMLCommandGroup], a
    class of [bentoml_cli] that is not part of [cli.py]; a single-level
    lookup in the alias map, a name that is no alias stands for itself. *)
Definition resolve_alias (cmd_name : string) : string :=
  default cmd_name (_aliases !! cmd_name).

(** [raise NotImplemented]: [NotImplemented] is a constant, not an
    exception class, so the statement itself raises [TypeError]. *)
Definition raise_NotImplemented {B} : result B :=
  Raise (TypeError "exceptions must derive from BaseException").

Definition get_command (ctx : context) (cmd_name : string) : result (option Command) :=
  let cmd_name := resolve_alias cmd_name in
  if bool_decide (ctx.(command_name) = Some "start") then
    match _cached_http !! cmd_name with
    | Some cmd => Ok (Some cmd)
    | None =>
        Raise (BadArgumentUsage
                 (cmd_name ++ " is not a valid model identifier supported by OpenLLM."))
    end
  else if bool_decide (ctx.(command_name) = Some "start-grpc") then
    raise_NotImplemented
  else super_get_command ctx cmd_name.
End Registry.

End SDServerCommandGroup.

(** ** start_model_command *)

(** The fields of an [sdserver.SDConfig] that [start_model_command] and
    [model_start] read; [workers_per_resource] is a Python float, kept
    abstract. *)
Record SDConfig (pyfloat : Type) : Type := {
  model_name : string;
  start_name : string;
  name_type : string;
  requires_gpu : bool;
  timeout : Z;
  workers_per_resource : pyfloat;
  start_docstring : string;
  model_ids_repr : string;
  default_id : string;
}.
Arguments model_name {pyfloat} _.
Arguments start_name {pyfloat} _.
Arguments name_type {pyfloat} _.
Arguments requires_gpu {pyfloat} _.
Arguments timeout {pyfloat} _.
Arguments workers_per_resource {pyfloat} _.
Arguments start_docstring {pyfloat} _.
Arguments model_ids_repr {pyfloat} _.
Arguments default_id {pyfloat} _.

(** A Python object a name can be bound to: a configuration object, or
    anything else. *)
Inductive pyobj (pyfloat : Type) : Type :=
| ObjConfig (config : SDConfig pyfloat)
| ObjOther.
Arguments ObjConfig {pyfloat} config.
Arguments ObjOther {pyfloat}.

(** The [click.Command] that [group.command] returns. *)
Record Command (pyfloat : Type) : Type := {
  name : string;
  short_help : string;
  help : string;
  aliases : option (list string);
  callback : bool -> bool -> bool -> M (option (pyobj pyfloat));
}.
Arguments name {pyfloat} _.
Arguments short_help {pyfloat} _.
Arguments help {pyfloat} _.
Arguments aliases {pyfloat} _.
Arguments callback {pyfloat} _.

(** The names bound in the body of [start_model_command] by the time the
    stub is built: its parameters, its import, its assignments and the
    nested function. *)
Definition start_model_command_names : list string :=
  ["model_name"; "_context_settings"; "_serve_grpc"; "BentoMLContainer";
   "sd_config"; "env"; "docstring"; "command_attrs"; "aliases";
   "serve_decorator"; "group"; "available_gpu"; "noop"].

(** The names bound at the top level of [cli.py]: imports, assignments,
    classes and functions. *)
Definition module_names : list string :=
  ["annotations"; "functools"; "inspect"; "itertools"; "logging"; "os"; "re";
   "sys"; "time"; "traceback"; "t"; "click"; "cog"; "inflection"; "orjson";
   "psutil"; "BentoMLCommandGroup"; "opt_callback"; "Provide"; "inject";
   "bentoml"; "sdserver"; "BentoMLContainer"; "__version__";
   "SDServerException"; "DEBUG"; "LazyLoader"; "LazyType"; "ModelEnv";
   "analytics"; "bentoml_cattr"; "configure_logging"; "first_not_none";
   "get_debug_mode"; "get_quiet_mode"; "gpu_count"; "is_torch_available";
   "set_debug_mode"; "set_quiet_mode"; "TupleStrAny"; "torch"; "logger";
   "COLUMNS"; "_CONTEXT_SETTINGS"; "SDSERVER_FIGLET"; "NargsOptions";
   "parse_device_callback"; "_echo"; "output_option"; "model_id_option";
   "workers_per_resource_option"; "SDServerCommandGroup"; "cli"; "start_cli";
   "_IGNORED_OPTIONS"; "WrappedServeFunction"; "parse_serve_args";
   "_http_server_args"; "_grpc_server_args"; "start_model_command";
   "_cached_http"; "_cached_grpc"; "_start"; "start"; "download_models"].

Definition newline : string := String (ascii_of_nat 10) EmptyString.
Definition backspace : string := String (ascii_of_nat 8) EmptyString.

Section StartModelCommand.
Context {pyfloat gpu_report : Type}.
(** [analytics.OpenllmCliEvent] *)
Variable OpenllmCliEvent : string -> string -> CliEvent.
(** [sdserver.AutoConfig.for_model] *)
Variable for_model : string -> SDConfig pyfloat.
(** [len(x)] for what [gpu_count()] returns *)
Variable gpu_len : gpu_report -> nat.
(** [analytics.track_start_init] *)
Variable track_start_init : pyobj pyfloat -> M unit.
(** The full handler [model_start], once decorated with its options. *)
Variable model_start : M (pyobj pyfloat).

(** The bindings the body of [noop] can see: the variables of the
    enclosing call, then those of the module.  Only [sd_config] holds a
    configuration object. *)
Definition scope (sd_config : SDConfig pyfloat) : gmap string (pyobj pyfloat) :=
  <["sd_config" := ObjConfig sd_config]>
    (list_to_map ((fun n => (n, ObjOther)) <$> (start_model_command_names ++ module_names)%list)).

(** Reading a variable; a name bound nowhere is not a builtin either in
    the cases below. *)
Definition load_name (sc : gmap string (pyobj pyfloat)) (n : string) : M (pyobj pyfloat) :=
  match sc !! n with
  | Some o => ret o
  | None => raise (NameError n)
  end.

(** The body of the stub [noop]. *)
Definition noop (sc : gmap string (pyobj pyfloat)) : M (pyobj pyfloat) :=
  (_echo "No GPU available, therefore this command is disabled" "red" ;;
   llm_config <- load_name sc "llm_config" ;;
   track_start_init llm_config ;;
   llm_config <- load_name sc "llm_config" ;;
   ret llm_config)%py.

(** [start_model_command(model_name)], with [available_gpu] standing
    for the value of [gpu_count()] at that time.  Both commands are
    registered on the group [start_cli], whose name is [start]. *)
Definition start_model_command (model_name_arg : string) (available_gpu : gpu_report)
  : Command pyfloat :=
  let sd_config := for_model model_name_arg in
  let docstring :=
    sd_config.(start_docstring) ++ newline ++ backspace ++ newline
    ++ "Available model_id(s): " ++ sd_config.(model_ids_repr)
    ++ " [default: " ++ sd_config.(default_id) ++ "]" ++ newline in
  let aliases :=
    if String.eqb sd_config.(name_type) "dasherize" then [sd_config.(start_name)] else [] in
  let aliases := if (0 <? length aliases)%nat then Some aliases else None in
  if sd_config.(requires_gpu) && (gpu_len available_gpu <? 1)%nat then
    {| name := sd_config.(model_name);
       short_help := "(Disabled because there is no GPU available)";
       help := model_name_arg ++ " is currently not available to run on your"
               ++ newline
               ++ "                local machine because it requires GPU for faster inference.";
       aliases := aliases;
       callback := SDServerCommandGroup.command OpenllmCliEvent
                     (noop (scope sd_config)) (Some "start") sd_config.(model_name) |}
  else
    {| name := sd_config.(model_name);
       short_help := "Start a SDServer for '" ++ model_name_arg
                     ++ "' ('--help' for more details)";
       help := docstring;
       aliases := aliases;
       callback := SDServerCommandGroup.command OpenllmCliEvent
                     model_start (Some "start") sd_config.(model_name) |}.
End StartModelCommand.

(** ** model_start: the configuration options handed to bentoml *)

Section ConfigOptions.
Context {pyfloat : Type}.
(** [str(x)] of a float *)
Variable str_float : pyfloat -> string.

(** The key of the runner of a model in the bentoml configuration. *)
Definition runner_key (start_name : string) : string :=
  "runners." ++ PyStr.dquote ++ "sd-" ++ start_name ++ "-runner" ++ PyStr.dquote.

Definition gpu_key : string :=
  ".resources." ++ PyStr.dquote ++ "nvidia.com/gpu" ++ PyStr.dquote.

(** [for idx, dev in enumerate(device)], counting from [idx]: one
    fragment per device at its index. *)
Fixpoint indexed_fragments (start_name : string) (idx : nat) (device : list string)
  : list string :=
  match device with
  | [] => []
  | dev :: device' =>
      (runner_key start_name ++ gpu_key ++ "[" ++ PyStr.str_index idx ++ "]=" ++ dev)
      :: indexed_fragments start_name (S idx) device'
  end.

(** The block under [if device:].  [device] is [None] when the option
    is absent, else the items of the sequence the callback returned,
    each as [str] renders it. *)
Definition device_fragments (start_name : string) (device : option (list string))
  : list string :=
  match device with
  | None | Some [] => []
  | Some device =>
      if (1 <? length device)%nat then indexed_fragments start_name 0 device
      else [runner_key start_name ++ gpu_key ++ "=[" ++ nth 0 device EmptyString ++ "]"]
  end.

(** [_bentoml_config_options_opts] once the device block has run. *)
Definition _bentoml_config_options_opts (config : SDConfig pyfloat)
    (server_timeout : Z) (workers : pyfloat) (device : option (list string))
  : list string :=
  List.app
    ["tracing.sample_rate=1.0";
     "api_server.traffic.timeout=" ++ PyStr.str_int server_timeout;
     runner_key config.(start_name) ++ ".traffic.timeout=" ++ PyStr.str_int config.(timeout);
     runner_key config.(start_name) ++ ".workers_per_resource=" ++ str_float workers]
    (device_fragments config.(start_name) device).

(** [_bentoml_config_options_env] after the augmented assignment.  The
    conditional expression binds weaker than [+], so its [else] branch
    is the whole of [EmptyString + join]. *)
Definition _bentoml_config_options_env (environ : gmap string string)
    (opts : list string) : string :=
  let env := default EmptyString (environ !! "BENTOML_CONFIG_OPTIONS") in
  env ++ (if PyStr.truthy env then " " else EmptyString ++ PyStr.join " " opts).

(** Lines 600 to 621 of [model_start] as a whole: the string that line
    646 lists under [BENTOML_CONFIG_OPTIONS] for [start_env]. *)
Definition config_options (environ : gmap string string) (config : SDConfig pyfloat)
    (server_timeout : Z) (workers : pyfloat) (device : option (list string)) : string :=
  _bentoml_config_options_env environ
    (_bentoml_config_options_opts config server_timeout workers device).

(** The words of the specification: the previous value, a separator
    when it is not empty, then every fragment. *)
Definition config_options_spec (environ : gmap string string) (opts : list string) : string :=
  let env := default EmptyString (environ !! "BENTOML_CONFIG_OPTIONS") in
  env ++ (if PyStr.truthy env then " " else EmptyString) ++ PyStr.join " " opts.
End ConfigOptions.

(** ** The specification in its own words *)

(** The words of the specification: a token begins with a recognized
    option prefix. *)
Definition begins_with_prefix (prefixes : list string) (tok : string) : bool :=
  existsb (PyStr.startswith tok) prefixes.

(** The words of the specification for one token: a lone comma is
    skipped, a token with a comma is split on commas, any other token is
    split on whitespace, and only the non-empty parts are kept. *)
Definition token_parts (v : string) : list string :=
  if String.eqb v "," then []
  else if PyStr.contains_char "," v
       then List.filter PyStr.truthy (PyStr.split_comma v)
       else List.filter PyStr.truthy (PyStr.split_whitespace v).

(** The words of the specification for a tuple: the parts of its tokens,
    flattened in order. *)
Definition device_tokens (value : list string) : list string :=
  flat_map token_parts value.

(** ** Identifiers *)

(** Some character of [s] satisfies [p]. *)
Fixpoint any_char (p : ascii -> bool) (s : string) : bool :=
  match s with
  | EmptyString => false
  | String c s' => p c || any_char p s'
  end.

(** An identifier that needs no splitting: not empty, no comma, no
    whitespace. *)
Definition plain_id (s : string) : Prop :=
  s <> EmptyString
  /\ PyStr.contains_char "," s = false
  /\ any_char PyStr.isspace s = false.

(** ** The flags of [common_params], as a change of the world *)

(** The world in which [common_params] runs the wrapped function:
    [--quiet] turns quiet mode on and, with [--debug] beside it, logs a
    warning; [--debug] alone turns debug mode on. *)
Definition apply_flags (quiet debug : bool) (w : world) : world :=
  {| echoed := w.(echoed);
     warned := if quiet && debug
               then (w.(warned) ++ ["'--quiet' passed; ignoring '--verbose/--debug'"])%list
               else w.(warned);
     tracked := w.(tracked);
     now := w.(now);
     quiet_mode := quiet || w.(quiet_mode);
     debug_mode := (negb quiet && debug) || w.(debug_mode);
     servers_started := w.(servers_started) |}.

(** ** SDServerCommandGroup: registering and listing commands *)

Module Registry.

(** The two dictionaries of a [BentoMLCommandGroup] that [command]
    writes: the aliases of each command, and the command of each
    alias. *)
Record group_state : Type := {
  _commands : gmap string (list string);
  _aliases : gmap string string;
}.

(** The end of the decorator that [command] returns, once click has
    built [cmd] under the name [cmd_name]: with aliases given, the name
    must not be empty, the aliases are stored under the name, and every
    alias is mapped to the name. *)
Definition record_aliases (cmd_name : string) (aliases : option (list string))
    (st : group_state) : result group_state :=
  match aliases with
  | None => Ok st
  | Some aliases =>
      if PyStr.truthy cmd_name then
        Ok {| _commands := <[cmd_name := aliases]> st.(_commands);
              _aliases := fold_left (fun m alias => <[alias := cmd_name]> m)
                            aliases st.(_aliases) |}
      else Raise (AssertionError EmptyString)
  end.

(** [l[-n:]] for a positive [n] *)
Definition last_n {A : Type} (n : nat) (l : list A) : list A :=
  drop (length l - n) l.

(** [l[:-n]] for a positive [n] *)
Definition but_last_n {A : Type} (n : nat) (l : list A) : list A :=
  take (length l - n) l.

Definition NUMBER_OF_COMMON_PARAMS : nat := 3.

(** The new value of [wrapped.__click_params__] in [command]: the
    common parameters, which the decorators put last, move to the
    front. *)
Definition reorder_params {A : Type} (click_params : list A) : list A :=
  (last_n NUMBER_OF_COMMON_PARAMS click_params
   ++ but_last_n NUMBER_OF_COMMON_PARAMS click_params)%list.

Section Listing.
(** The keys of [sdserver.CONFIG_MAPPING], in the order of the mapping *)
Variable CONFIG_MAPPING : list string.
(** [list_commands] of the parent class *)
Variable super_list_commands : SDServerCommandGroup.context -> list string.

Definition list_commands (ctx : SDServerCommandGroup.context) : list string :=
  if bool_decide (SDServerCommandGroup.command_name ctx = Some "start")
  then CONFIG_MAPPING
  else super_list_commands ctx.
End Listing.

Section Cache.
Context {Cmd : Type}.
(** [start_model_command(key, _context_settings=_CONTEXT_SETTINGS)] *)
Variable build : string -> Cmd.

(** The dictionary comprehension that fills [_cached_http]: one command
    per key of [CONFIG_MAPPING], a later key replacing an equal earlier
    one. *)
Definition _cached_http (CONFIG_MAPPING : list string) : gmap string Cmd :=
  fold_left (fun cache key => <[key := build key]> cache) CONFIG_MAPPING ∅.
End Cache.

End Registry.

(** ** download_models *)

(** [get_debug_mode()] *)
Definition get_debug_mode : M bool := fun w => (Ok w.(debug_mode), w).

(** [try: body / except NotFound: handler], for the class
    [bentoml.exceptions.NotFound] itself. *)
Definition is_NotFound (e : exn) : bool :=
  match e with
  | OtherException class_name => String.eqb class_name "NotFound"
  | _ => false
  end.

Definition try_except_NotFound {A} (body : M A) (handler : M A) : M A :=
  fun w => match body w with
           | (Ok a, w') => (Ok a, w')
           | (Raise e, w') => if is_NotFound e then handler w' else (Raise e, w')
           end.

(** What a [finally] clause does with the outcome of the statement it
    guards: the clause runs, and its own exception, if any, replaces
    the outcome. *)
Definition run_finally {A} (final : M unit) (outcome : result A) : M A :=
  fun w => match final w with
           | (Ok _, w') => (outcome, w')
           | (Raise e, w') => (Raise e, w')
           end.

(** [try: body / finally: final] *)
Definition try_finally {A} (body : M A) (final : M unit) : M A :=
  fun w => let '(outcome, w') := body w in run_finally final outcome w'.

(** The values of the dictionaries given to [orjson.dumps]. *)
Inductive json_value : Type :=
| JBool (b : bool)
| JString (s : string).

(** What [download_models] reads of the model object and of the store
    reference: [str(model.tag)], [model.__class__.__name__], and
    [str(_ref.tag)]. *)
Record Model : Type := { model_tag : string; model_class : string }.
Record Ref : Type := { ref_tag : string }.

Section Download.
(** [utils.DEBUG] *)
Variable DEBUG : bool.
(** [orjson.dumps(d, option=orjson.OPT_INDENT_2).decode()], the items of
    [d] in their order *)
Variable orjson_dumps : list (string * json_value) -> string.
(** Lines 729 to 734: the configuration of the model, the value of its
    framework variable, and the model object *)
Variable load_model : string -> option string -> M (string * Model).
(** [bentoml.transformers.get(model.tag)] *)
Variable transformers_get : Model -> M Ref.
(** Lines 764 to 772: [model.import_model] on [model.llm_parameters] *)
Variable import_model : Model -> M Ref.
(** [is_torch_available() and torch.cuda.is_available()] *)
Variable cuda_available : M bool.
(** [torch.cuda.empty_cache()] *)
Variable empty_cache : M unit.

(** The [finally] clause. *)
Definition release : M unit :=
  (available <- cuda_available ;;
   if available then empty_cache else ret tt)%py.

(** The last branch of both [if output == ...] chains: the bare tag,
    marked in debug. *)
Definition echo_tag (tag : string) (fg : string) : M unit :=
  (debug <- get_debug_mode ;;
   if DEBUG || debug then _echo ("__tag__:" ++ tag) fg else _echo tag fg)%py.

(** The body of the [try]. *)
Definition already_setup (output model_name envvar : string) (model : Model) : M Ref :=
  (_ref <- transformers_get model ;;
   (if String.eqb output "pretty" then
      _echo (model_name ++ " is already setup for framework '" ++ envvar ++ "': "
             ++ _ref.(ref_tag)) "yellow"
    else if String.eqb output "json" then
      _echo (orjson_dumps [("previously_setup", JBool true);
                           ("framework", JString envvar);
                           ("model", JString _ref.(ref_tag))]) "white"
    else echo_tag _ref.(ref_tag) "white") ;;
   ret _ref)%py.

(** The handler of [NotFound]. *)
Definition save_to_store (output envvar : string) (model : Model) : M Ref :=
  ((if String.eqb output "pretty" then
      _echo ("'" ++ model.(model_class) ++ "' with tag '" ++ model.(model_tag)
             ++ "' does not exists in local store!. Saving to store...") "yellow"
    else ret tt) ;;
   _ref <- import_model model ;;
   (if String.eqb output "pretty" then
      _echo ("Saved model: " ++ _ref.(ref_tag)) "green"
    else if String.eqb output "json" then
      _echo (orjson_dumps [("previously_setup", JBool false);
                           ("framework", JString envvar);
                           ("tag", JString _ref.(ref_tag))]) "green"
    else echo_tag _ref.(ref_tag) "green") ;;
   ret _ref)%py.

(** [download_models(model_name, model_id, output)].  For the output
    [porcelain] quiet mode is turned on first ([configure_logging] acts
    on the logging module only). *)
Definition download_models (model_name : string) (model_id : option string)
    (output : string) : M Ref :=
  ((if String.eqb output "porcelain" then set_quiet_mode else ret tt) ;;
   loaded <- load_model model_name model_id ;;
   let '(envvar, model) := loaded in
   try_finally
     (try_except_NotFound (already_setup output model_name envvar model)
        (save_to_store output envvar model))
     release)%py.
End Download.

(** The world in which [download_models] loads the model: quiet mode is
    on for the output [porcelain]. *)
Definition loading_world (output : string) (w : world) : world :=
  if String.eqb output "porcelain" then snd (set_quiet_mode w) else w.

(** ** What gpu_count reports *)




(** * Properties *)

(** ** The variadic option *)

Lemma scan_prefixes_spec (prefixes : list string) (tok : string) (done : bool) :
  NargsOptions.scan_prefixes prefixes tok done = done || begins_with_prefix prefixes tok.
Proof.
  unfold NargsOptions.scan_prefixes, begins_with_prefix.
  revert done. induction prefixes as [|p ps IH]; intros done; simpl.
  - by rewrite orb_false_r.
  - rewrite IH. destruct (PyStr.startswith tok p), done; reflexivity.
Qed.

Lemma grab_spec (prefixes : list string) (rargs value : list string) :
  exists taken rest : list string,
    rargs = (taken ++ rest)%list
    /\ NargsOptions.grab prefixes value rargs = ((value ++ taken)%list, rest)
    /\ Forall (fun tok => begins_with_prefix prefixes tok = false) taken
    /\ (rest = [] \/ exists tok rest', rest = tok :: rest'
                       /\ begins_with_prefix prefixes tok = true).
Proof.
  revert value. induction rargs as [|tok rargs IH]; intros value.
  - exists [], []. simpl. rewrite app_nil_r. repeat split; auto.
  - simpl. rewrite scan_prefixes_spec. simpl.
    destruct (begins_with_prefix prefixes tok) eqn:Htok.
    + exists [], (tok :: rargs). rewrite app_nil_r.
      repeat split; auto. right. by exists tok, rargs.
    + destruct (IH (value ++ [tok])%list) as (taken & rest & -> & Hg & Hall & Hrest).
      exists (tok :: taken), rest. rewrite Hg, <- app_assoc. simpl.
      repeat split; auto.
Qed.

(** C7. When the variadic option is recognized with the current token
    [value], [_parser] splits the remaining tokens in two: [taken], none
    of which begins with a recognized prefix, and [rest], which is empty
    or starts with a token that does.  It hands [value] followed by
    [taken], in order, to the previous [process] and leaves [rest] as the
    remaining arguments.  When no remaining token begins with a prefix,
    everything is taken. *)
Theorem nargs_parser_greedy {State Out : Type}
    (get_rargs : State -> list string) (set_rargs : list string -> State -> State)
    (prev_parser_process : list string -> State -> Out)
    (prefixes : list string) (value : string) (state : State) :
  exists taken rest : list string,
    get_rargs state = (taken ++ rest)%list
    /\ NargsOptions._parser get_rargs set_rargs prev_parser_process prefixes value state
       = prev_parser_process (value :: taken) (set_rargs rest state)
    /\ Forall (fun tok => begins_with_prefix prefixes tok = false) taken
    /\ (rest = [] \/ exists tok rest', rest = tok :: rest'
                       /\ begins_with_prefix prefixes tok = true)
    /\ (Forall (fun tok => begins_with_prefix prefixes tok = false) (get_rargs state)
        -> taken = get_rargs state /\ rest = []).
Proof.
  destruct (grab_spec prefixes (get_rargs state) [value])
    as (taken & rest & Hsplit & Hg & Hall & Hrest).
  exists taken, rest. unfold NargsOptions._parser. rewrite Hg. simpl.
  repeat split; auto.
  - destruct Hrest as [->|(tok & rest' & -> & Htok)].
    + by rewrite app_nil_r in Hsplit.
    + rewrite Hsplit in H. apply Forall_app in H as [_ H].
      apply Forall_cons in H as [H _]. congruence.
  - destruct Hrest as [->|(tok & rest' & -> & Htok)]; [done|].
    rewrite Hsplit in H. apply Forall_app in H as [_ H].
    apply Forall_cons in H as [H _]. congruence.
Qed.

Lemma nargs_parser_greedy_witness :
  exists taken rest : list string,
    ["1"; "2"; "--fast"; "3"] = (taken ++ rest)%list
    /\ NargsOptions._parser (fun s : list string => s) (fun r _ => r)
         (fun v s => (v, s)) ["-"; "--"] "0" ["1"; "2"; "--fast"; "3"]
       = ("0" :: taken, rest)
    /\ Forall (fun tok => begins_with_prefix ["-"; "--"] tok = false) taken
    /\ (rest = [] \/ exists tok rest', rest = tok :: rest'
                       /\ begins_with_prefix ["-"; "--"] tok = true)
    /\ (Forall (fun tok => begins_with_prefix ["-"; "--"] tok = false)
          ["1"; "2"; "--fast"; "3"]
        -> taken = ["1"; "2"; "--fast"; "3"] /\ rest = []).
Proof.
  exact (nargs_parser_greedy (fun s : list string => s) (fun r _ => r)
           (fun v s => (v, s)) ["-"; "--"] "0" ["1"; "2"; "--fast"; "3"]).
Defined.

(** The run of the specification: [--device 0 1 2 --fast 3]. *)
Example nargs_parser_run :
  NargsOptions._parser (fun s : list string => s) (fun r _ => r)
    (fun v s => (v, s)) ["-"; "--"] "0" ["1"; "2"; "--fast"; "3"]
  = (["0"; "1"; "2"], ["--fast"; "3"]).
Proof. reflexivity. Qed.

(** C10. Built with an arity other than -1, the option raises the
    configuration error that names the arity, whatever the parent
    constructor would do; built with -1, given or by default, it passes
    the check, and the outcome is that of the parent constructor: its
    error, or the new instance with both hooks unset. *)
Theorem nargs_init_arity {Rest Parent Hook Opt : Type}
    (super_init : Rest -> result Parent) (rest : Rest) :
  (forall n : Z, n <> (-1)%Z ->
     NargsOptions.init (Hook := Hook) (Opt := Opt) super_init
       (NargsOptions.Build_attrs (Some n) rest)
     = Raise (SDServerException
                ("'nargs' is set, and must be -1 instead of " ++ PyStr.str_int n)))
  /\ (forall nargs : option Z, nargs = Some (-1)%Z \/ nargs = None ->
        NargsOptions.init (Hook := Hook) (Opt := Opt) super_init
          (NargsOptions.Build_attrs nargs rest)
        = match super_init rest with
          | Ok p => Ok (NargsOptions.Build_t p None None)
          | Raise e => Raise e
          end).
Proof.
  split.
  - intros n Hn. unfold NargsOptions.init. simpl.
    destruct (Z.eqb_spec n (-1)); [contradiction|reflexivity].
  - intros nargs [->| ->]; reflexivity.
Qed.

Lemma nargs_init_arity_witness :
  NargsOptions.init (Hook := unit) (Opt := unit) (fun _ : unit => Ok tt)
    (NargsOptions.Build_attrs (Some 2%Z) tt)
  = Raise (SDServerException "'nargs' is set, and must be -1 instead of 2")
  /\ NargsOptions.init (Hook := unit) (Opt := unit) (fun _ : unit => Ok tt)
       (NargsOptions.Build_attrs (Some (-1)%Z) tt)
     = Ok (NargsOptions.Build_t tt None None).
Proof.
  split.
  - apply (proj1 (nargs_init_arity (Hook := unit) (Opt := unit)
                    (fun _ : unit => Ok tt) tt) 2%Z). lia.
  - apply (proj2 (nargs_init_arity (Hook := unit) (Opt := unit)
                    (fun _ : unit => Ok tt) tt) (Some (-1)%Z)). by left.
Defined.

(** ** The device callback *)

Lemma parse_tokens_flat_map (parsed value : list string) :
  parse_tokens parsed value = (parsed ++ flat_map parse_token value)%list.
Proof.
  unfold parse_tokens. revert parsed.
  induction value as [|v value IH]; intros parsed; simpl.
  - by rewrite app_nil_r.
  - by rewrite IH, <- app_assoc.
Qed.

Lemma filter_flat_map {A B : Type} (p : B -> bool) (f : A -> list B) (l : list A) :
  List.filter p (flat_map f l) = flat_map (fun a => List.filter p (f a)) l.
Proof.
  induction l as [|a l IH]; simpl; [done|].
  by rewrite List.filter_app, IH.
Qed.

Lemma filter_truthy_token (v : string) :
  List.filter PyStr.truthy (parse_token v) = token_parts v.
Proof.
  unfold parse_token, token_parts.
  destruct (String.eqb v ","); [done|].
  by destruct (PyStr.contains_char "," v).
Qed.

Lemma parse_device_tokens (value : list string) :
  List.filter PyStr.truthy (parse_tokens [] value) = device_tokens value.
Proof.
  rewrite parse_tokens_flat_map. simpl. rewrite filter_flat_map.
  unfold device_tokens. induction value as [|v value IH]; simpl; [done|].
  by rewrite filter_truthy_token, IH.
Qed.

Lemma split_whitespace_nonempty (v : string) :
  List.filter PyStr.truthy (PyStr.split_whitespace v) = PyStr.split_whitespace v.
Proof.
  unfold PyStr.split_whitespace.
  induction (PyStr.fields PyStr.isspace v) as [|w ws IH]; simpl; [done|].
  destruct (PyStr.truthy w) eqn:Hw; simpl; [by rewrite Hw, IH|done].
Qed.

Lemma sentinel_test (value : list string) :
  value <> ["all"] ->
  (length value =? 1)%nat && String.eqb (nth 0 value EmptyString) "all" = false.
Proof.
  intros Hne. destruct value as [|v [|v' value]]; simpl; try done.
  destruct (String.eqb_spec v "all") as [->|]; [contradiction|done].
Qed.

(** C8. For a tuple other than the single token [all], the callback
    returns the tuple of the non-empty parts of its tokens, in order: a
    lone comma gives nothing, a token with a comma is split on commas,
    any other token on whitespace.  So [(",",)] gives [()] and
    [("0,1", "2")] gives [("0", "1", "2")]. *)
Theorem parse_device_callback_tokens {gpu_report : Type} (gpu_count : gpu_report)
    (params_repr : string) (value : list string) :
  value <> ["all"] ->
  parse_device_callback gpu_count params_repr (VTuple value)
  = Ok (DeviceTuple (device_tokens value))
  /\ Forall (fun tok => tok <> EmptyString) (device_tokens value)
  /\ parse_device_callback gpu_count params_repr (VTuple [","]) = Ok (DeviceTuple [])
  /\ parse_device_callback gpu_count params_repr (VTuple ["0,1"; "2"])
     = Ok (DeviceTuple ["0"; "1"; "2"]).
Proof.
  intros Hne. split; [|split; [|split; reflexivity]].
  - unfold parse_device_callback. rewrite sentinel_test by done.
    by rewrite parse_device_tokens.
  - unfold device_tokens. clear Hne.
    induction value as [|v value IH]; simpl; [constructor|].
    apply Forall_app. split; [|done].
    unfold token_parts. destruct (String.eqb v ","); [constructor|].
    destruct (PyStr.contains_char "," v).
    + induction (PyStr.split_comma v) as [|w ws IHw]; simpl; [constructor|].
      destruct w; simpl; [done|]. by constructor.
    + induction (PyStr.split_whitespace v) as [|w ws IHw]; simpl; [constructor|].
      destruct w; simpl; [done|]. by constructor.
Qed.

Lemma parse_device_callback_tokens_witness :
  parse_device_callback 2%nat "device" (VTuple ["0, 1"; ","; " 2  3 "; "all"])
  = Ok (DeviceTuple ["0"; " 1"; "2"; "3"; "all"]).
Proof.
  apply (proj1 (parse_device_callback_tokens 2%nat "device"
                  ["0, 1"; ","; " 2  3 "; "all"] ltac:(discriminate))).
Defined.





(** ** The middleware layers *)

Lemma click_style_red_contains (text : string) :
  exists pre post : string, click_style_red text = pre ++ text ++ post.
Proof.
  exists (String (ascii_of_nat 27) EmptyString ++ "[31m"),
         (String (ascii_of_nat 27) EmptyString ++ "[0m").
  reflexivity.
Qed.

(** C5. When what the error-translation layer wraps raises the domain
    exception with message [m], the layer raises a [ClickException]
    whose message is the styled text [[group] 'command' failed: m], so
    that text stands in the message; when it raises
    [KeyboardInterrupt], the layer returns [None] and leaves the world
    as the wrapped call left it: nothing is printed, nothing is
    raised. *)
Theorem exception_handling_translates {A : Type} (func : M A)
    (group command : string) (w w' : world) :
  (forall m : string,
     func w = (Raise (SDServerException m), w') ->
     exists pre post : string,
       SDServerCommandGroup.exception_handling func (Some group) command w
       = (Raise (ClickException
                   (pre ++ ("[" ++ group ++ "] '" ++ command ++ "' failed: " ++ m) ++ post)),
          w'))
  /\ (func w = (Raise KeyboardInterrupt, w') ->
      SDServerCommandGroup.exception_handling func (Some group) command w = (Ok None, w')).
Proof.
  split.
  - intros m Hf.
    destruct (click_style_red_contains
                ("[" ++ group ++ "] '" ++ command ++ "' failed: " ++ m))
      as (pre & post & Hstyle).
    exists pre, post. unfold SDServerCommandGroup.exception_handling.
    rewrite Hf. simpl. by rewrite <- Hstyle.
  - intros Hf. unfold SDServerCommandGroup.exception_handling. by rewrite Hf.
Qed.

(** The run of the specification: a command [opt] of the group [start]
    that fails with [bad weight], and one that is interrupted. *)
Lemma exception_handling_translates_witness :
  (exists pre post : string,
     SDServerCommandGroup.exception_handling
       (raise (A := unit) (SDServerException "bad weight")) (Some "start") "opt"
       (initial_world 0)
     = (Raise (ClickException (pre ++ "[start] 'opt' failed: bad weight" ++ post)),
        initial_world 0))
  /\ SDServerCommandGroup.exception_handling
       (raise (A := unit) KeyboardInterrupt) (Some "start") "opt" (initial_world 0)
     = (Ok None, initial_world 0).
Proof.
  split.
  - apply (proj1 (exception_handling_translates
                    (raise (A := unit) (SDServerException "bad weight"))
                    "start" "opt" (initial_world 0) (initial_world 0)) "bad weight").
    reflexivity.
  - apply (proj2 (exception_handling_translates
                    (raise (A := unit) KeyboardInterrupt) "start" "opt"
                    (initial_world 0) (initial_world 0))).
    reflexivity.
Defined.

(** C6, at its failing input.  With tracking on, a wrapped call that
    raises [KeyboardInterrupt] makes the telemetry layer raise it again
    and leave the world as the call left it: no event is emitted, no
    return code 2 is recorded.  [KeyboardInterrupt] is no [Exception],
    so the handler that would do both is never entered. *)
Theorem usage_tracking_misses_interrupt {A : Type}
    (OpenllmCliEvent : string -> string -> CliEvent) (func : M A)
    (group command : string) (w w' : world) :
  func w = (Raise KeyboardInterrupt, w') ->
  SDServerCommandGroup.usage_tracking OpenllmCliEvent func (Some group) command false w
  = (Raise KeyboardInterrupt, w').
Proof.
  intros Hf. unfold SDServerCommandGroup.usage_tracking, bind, time_ns,
    try_except_Exception. simpl. by rewrite Hf.
Qed.

Lemma usage_tracking_misses_interrupt_witness :
  SDServerCommandGroup.usage_tracking (fun g c => Build_CliEvent g c None None None)
    (raise (A := unit) KeyboardInterrupt) (Some "start") "opt" false (initial_world 0)
  = (Raise KeyboardInterrupt, initial_world 0).
Proof.
  apply (usage_tracking_misses_interrupt (fun g c => Build_CliEvent g c None None None)
           (raise (A := unit) KeyboardInterrupt) "start" "opt"
           (initial_world 0) (initial_world 0)).
  reflexivity.
Defined.

(** X1. What the telemetry layer does for an instance of [Exception]:
    one event with the elapsed time, the class name and return code 1,
    then the same exception again. *)
Lemma usage_tracking_records_exception {A : Type}
    (OpenllmCliEvent : string -> string -> CliEvent) (func : M A)
    (group command : string) (e : exn) (w w' : world) :
  func w = (Raise e, w') ->
  is_Exception e = true ->
  SDServerCommandGroup.usage_tracking OpenllmCliEvent func (Some group) command false w
  = (Raise e,
     snd (track
            (set_return_code 1
               (set_error_type (type_name e)
                  (set_duration_in_ms (Qmake (w'.(now) - w.(now)) 1000000)
                     (OpenllmCliEvent group command)))) w')).
Proof.
  intros Hf He. unfold SDServerCommandGroup.usage_tracking, bind, time_ns,
    try_except_Exception. simpl. rewrite Hf. simpl. rewrite He. simpl.
  destruct e; try discriminate; reflexivity.
Qed.

(** With the do-not-track flag the wrapped call runs as it is: no clock
    reading, no event. *)
Lemma usage_tracking_do_not_track {A : Type}
    (OpenllmCliEvent : string -> string -> CliEvent) (func : M A)
    (group : option string) (command : string) :
  SDServerCommandGroup.usage_tracking OpenllmCliEvent func group command true = func.
Proof. reflexivity. Qed.

Lemma usage_tracking_records_exception_witness :
  SDServerCommandGroup.usage_tracking (fun g c => Build_CliEvent g c None None None)
    (raise (A := unit) (SDServerException "bad weight")) (Some "start") "opt" false
    (initial_world 5)
  = (Raise (SDServerException "bad weight"),
     {| echoed := []; warned := [];
        tracked := [{| cmd_group := "start"; cmd_name := "opt";
                       duration_in_ms := Some (Qmake 0 1000000);
                       error_type := Some "SDServerException";
                       return_code := Some 1%Z |}];
        now := 5; quiet_mode := false; debug_mode := false; servers_started := 0 |}).
Proof.
  exact (usage_tracking_records_exception (fun g c => Build_CliEvent g c None None None)
           (raise (A := unit) (SDServerException "bad weight")) "start" "opt"
           (SDServerException "bad weight") (initial_world 5) (initial_world 5)
           eq_refl eq_refl).
Defined.

(** The three layers together, on the run of the specification: the
    command [opt] of the group [start] fails with [bad weight].  One
    event with return code 1 is emitted and the styled message comes out
    as a [ClickException]. *)
Example command_bad_weight_run :
  SDServerCommandGroup.command (fun g c => Build_CliEvent g c None None None)
    (raise (A := unit) (SDServerException "bad weight")) (Some "start") "opt"
    false false false (initial_world 5)
  = (Raise (ClickException (click_style_red "[start] 'opt' failed: bad weight")),
     {| echoed := []; warned := [];
        tracked := [{| cmd_group := "start"; cmd_name := "opt";
                       duration_in_ms := Some (Qmake 0 1000000);
                       error_type := Some "SDServerException";
                       return_code := Some 1%Z |}];
        now := 5; quiet_mode := false; debug_mode := false; servers_started := 0 |}).
Proof. reflexivity. Qed.

(** The three layers together on an interrupted command: it ends with
    [None], and the telemetry layer has emitted nothing. *)
Example command_interrupt_run :
  SDServerCommandGroup.command (fun g c => Build_CliEvent g c None None None)
    (raise (A := unit) KeyboardInterrupt) (Some "start") "opt"
    false false false (initial_world 5)
  = (Ok None, initial_world 5).
Proof. reflexivity. Qed.

(** ** The command registry *)

(** C4 as stated fails at the context [start-grpc]: the parent group
    knows the command, and [get_command] raises instead of asking it. *)
Lemma get_command_start_grpc_counterexample :
  SDServerCommandGroup.command_name (SDServerCommandGroup.Build_context (Some "start-grpc"))
  <> Some "start"
  /\ SDServerCommandGroup.get_command (Command := nat) ∅ ∅
       (fun _ _ => Ok (Some 7%nat))
       (SDServerCommandGroup.Build_context (Some "start-grpc")) "opt"
     <> (fun _ _ => Ok (Some 7%nat))
          (SDServerCommandGroup.Build_context (Some "start-grpc"))
          (SDServerCommandGroup.resolve_alias ∅ "opt").
Proof. split; discriminate. Qed.

(** C4, amended.  [get_command] first resolves the name through the
    alias map.  In the context [start] it returns the cached command of
    the canonical name, and raises a bad-argument-usage error that names
    the canonical name when there is none.  In the context [start-grpc]
    it raises and looks nothing up.  In every other context it returns
    what the parent group returns for the canonical name. *)
Theorem get_command_by_context {Command : Type}
    (_aliases : gmap string string) (_cached_http : gmap string Command)
    (super_get_command : SDServerCommandGroup.context -> string -> result (option Command))
    (ctx : SDServerCommandGroup.context) (cmd_name : string) :
  let canonical := SDServerCommandGroup.resolve_alias _aliases cmd_name in
  let found := SDServerCommandGroup.get_command _aliases _cached_http
                 super_get_command ctx cmd_name in
  (SDServerCommandGroup.command_name ctx = Some "start" ->
     (forall cmd, _cached_http !! canonical = Some cmd -> found = Ok (Some cmd))
     /\ (_cached_http !! canonical = None ->
         found = Raise (BadArgumentUsage
                          (canonical ++ " is not a valid model identifier supported by OpenLLM."))))
  /\ (SDServerCommandGroup.command_name ctx = Some "start-grpc" ->
      exists e : exn, found = Raise e)
  /\ (SDServerCommandGroup.command_name ctx <> Some "start" ->
      SDServerCommandGroup.command_name ctx <> Some "start-grpc" ->
      found = super_get_command ctx canonical).
Proof.
  intros canonical found. subst canonical found.
  unfold SDServerCommandGroup.get_command. split; [|split].
  - intros Hctx. split.
    + intros cmd Hc. rewrite bool_decide_eq_true_2 by done. by rewrite Hc.
    + intros Hc. rewrite bool_decide_eq_true_2 by done. by rewrite Hc.
  - intros Hctx. rewrite bool_decide_eq_false_2 by (rewrite Hctx; discriminate).
    rewrite bool_decide_eq_true_2 by done. by eexists.
  - intros H1 H2. by rewrite !bool_decide_eq_false_2 by done.
Qed.

Lemma get_command_by_context_witness :
  SDServerCommandGroup.get_command {["o" := "opt"]} {["opt" := 1%nat]}
    (fun _ _ => Ok None) (SDServerCommandGroup.Build_context (Some "start")) "o"
  = Ok (Some 1%nat)
  /\ SDServerCommandGroup.get_command {["o" := "opt"]} {["opt" := 1%nat]}
       (fun _ _ => Ok None) (SDServerCommandGroup.Build_context (Some "start")) "zz"
     = Raise (BadArgumentUsage "zz is not a valid model identifier supported by OpenLLM.")
  /\ SDServerCommandGroup.get_command {["o" := "opt"]} {["opt" := 1%nat]}
       (fun _ n => Ok (Some (String.length n)))
       (SDServerCommandGroup.Build_context (Some "sdserver")) "o"
     = Ok (Some 3%nat).
Proof.
  split; [|split].
  - exact (proj1 (proj1 (get_command_by_context {["o" := "opt"]} {["opt" := 1%nat]}
             (fun _ _ => Ok None) (SDServerCommandGroup.Build_context (Some "start")) "o")
             eq_refl) 1%nat eq_refl).
  - exact (proj2 (proj1 (get_command_by_context {["o" := "opt"]} {["opt" := 1%nat]}
             (fun _ _ => Ok None) (SDServerCommandGroup.Build_context (Some "start")) "zz")
             eq_refl) eq_refl).
  - exact (proj2 (proj2 (get_command_by_context {["o" := "opt"]} {["opt" := 1%nat]}
             (fun _ n => Ok (Some (String.length n)))
             (SDServerCommandGroup.Build_context (Some "sdserver")) "o"))
             ltac:(discriminate) ltac:(discriminate)).
Defined.

(** ** The stub command *)

(** Neither the enclosing call nor the module binds [llm_config]. *)
Lemma llm_config_unbound {pyfloat : Type} (sd_config : SDConfig pyfloat) :
  scope sd_config !! "llm_config" = None.
Proof. vm_compute. reflexivity. Qed.

(** The stub prints its diagnostic, then fails on the name it is meant
    to return. *)
Lemma noop_raises {pyfloat : Type} (track_start_init : pyobj pyfloat -> M unit)
    (sd_config : SDConfig pyfloat) (w : world) :
  noop track_start_init (scope sd_config) w
  = (Raise (NameError "llm_config"),
     snd (_echo "No GPU available, therefore this command is disabled" "red" w)).
Proof.
  unfold noop, bind, load_name. rewrite llm_config_unbound. reflexivity.
Qed.

(** C3, at its failing input.  For a model that requires a GPU, built
    when none is available, the command is the stub; run without
    tracking, it prints the diagnostic and starts no server, but it does
    not return the configuration of the model: it raises [NameError],
    [llm_config] being bound nowhere. *)
Theorem stub_command_raises {pyfloat gpu_report : Type}
    (OpenllmCliEvent : string -> string -> CliEvent)
    (for_model : string -> SDConfig pyfloat) (gpu_len : gpu_report -> nat)
    (track_start_init : pyobj pyfloat -> M unit) (model_start : M (pyobj pyfloat))
    (model_name : string) (available_gpu : gpu_report) (w : world) :
  requires_gpu (for_model model_name) = true ->
  gpu_len available_gpu = 0%nat ->
  let cmd := start_model_command OpenllmCliEvent for_model gpu_len track_start_init
               model_start model_name available_gpu in
  let out := callback cmd false false true w in
  short_help cmd = "(Disabled because there is no GPU available)"
  /\ fst out = Raise (NameError "llm_config")
  /\ fst out <> Ok (Some (ObjConfig (for_model model_name)))
  /\ echoed (snd out)
     = (echoed w ++ [(if debug_mode w then None else Some "red",
                      "No GPU available, therefore this command is disabled")])%list
  /\ servers_started (snd out) = servers_started w.
Proof.
  intros Hgpu Hlen cmd out. subst out cmd. unfold start_model_command.
  rewrite Hgpu, Hlen. cbn [andb Nat.ltb Nat.leb callback short_help].
  unfold SDServerCommandGroup.command, SDServerCommandGroup.exception_handling,
    SDServerCommandGroup.usage_tracking, SDServerCommandGroup.common_params, bind, ret.
  rewrite noop_raises. cbn [fst snd _echo echoed servers_started].
  split; [reflexivity|]. split; [reflexivity|]. split; [discriminate|].
  split; reflexivity.
Qed.

Lemma stub_command_raises_witness :
  fst (callback
         (start_model_command (fun g c => Build_CliEvent g c None None None)
            (fun n => Build_SDConfig unit n n "lowercase" true 3600 tt
                        EmptyString "[]" EmptyString)
            (fun ids : list Z => length ids) (fun _ => ret tt) (ret ObjOther)
            "stable-diffusion" [])
         false false true (initial_world 0))
  = Raise (NameError "llm_config").
Proof.
  exact (proj1 (proj2 (stub_command_raises (fun g c => Build_CliEvent g c None None None)
           (fun n => Build_SDConfig unit n n "lowercase" true 3600 tt
                       EmptyString "[]" EmptyString)
           (fun ids : list Z => length ids) (fun _ => ret tt) (ret ObjOther)
           "stable-diffusion" [] (initial_world 0) eq_refl eq_refl))).
Defined.

(** ** The configuration options *)

Lemma indexed_fragments_imap (start_name : string) (idx : nat) (device : list string) :
  indexed_fragments start_name idx device
  = imap (fun i dev => runner_key start_name ++ gpu_key ++ "["
                       ++ PyStr.str_index (idx + i) ++ "]=" ++ dev) device.
Proof.
  revert idx. induction device as [|dev device IH]; intros idx; simpl; [done|].
  rewrite Nat.add_0_r. f_equal. rewrite IH. apply imap_ext.
  intros i x _. simpl. by rewrite Nat.add_succ_r.
Qed.

(** C9. For a parsed device tuple the options handed to bentoml are the
    four general ones followed by the resource assignments.  One
    identifier gives one fragment, which assigns the bracketed
    identifier at the resource key without index; two identifiers or
    more give one fragment each, in order, which assigns the identifier
    at the resource key indexed by its position counted from zero. *)
Theorem device_fragments_asymmetry {pyfloat : Type} (str_float : pyfloat -> string)
    (config : SDConfig pyfloat) (server_timeout : Z) (workers : pyfloat) :
  let general :=
    ["tracing.sample_rate=1.0";
     "api_server.traffic.timeout=" ++ PyStr.str_int server_timeout;
     runner_key (start_name config) ++ ".traffic.timeout="
       ++ PyStr.str_int (timeout config);
     runner_key (start_name config) ++ ".workers_per_resource=" ++ str_float workers] in
  (forall dev : string,
     _bentoml_config_options_opts str_float config server_timeout workers (Some [dev])
     = List.app general
         [runner_key (start_name config) ++ gpu_key ++ "=[" ++ dev ++ "]"])
  /\ (forall (dev0 dev1 : string) (devs : list string),
        _bentoml_config_options_opts str_float config server_timeout workers
          (Some (dev0 :: dev1 :: devs))
        = List.app general
            (imap (fun idx dev => runner_key (start_name config) ++ gpu_key ++ "["
                                  ++ PyStr.str_index idx ++ "]=" ++ dev)
               (dev0 :: dev1 :: devs))).
Proof.
  intros general. split.
  - intros dev. reflexivity.
  - intros dev0 dev1 devs. unfold _bentoml_config_options_opts, device_fragments.
    cbn [length Nat.ltb Nat.leb]. by rewrite indexed_fragments_imap.
Qed.

(** The run of the specification: [start opt --device 0 1]. *)
Example device_fragments_run :
  device_fragments "opt" (Some ["0"; "1"])
  = ["runners." ++ PyStr.dquote ++ "sd-opt-runner" ++ PyStr.dquote ++ ".resources."
       ++ PyStr.dquote ++ "nvidia.com/gpu" ++ PyStr.dquote ++ "[0]=0";
     "runners." ++ PyStr.dquote ++ "sd-opt-runner" ++ PyStr.dquote ++ ".resources."
       ++ PyStr.dquote ++ "nvidia.com/gpu" ++ PyStr.dquote ++ "[1]=1"].
Proof. reflexivity. Qed.

(** C1, at its failing input.  When [BENTOML_CONFIG_OPTIONS] is set to a
    non-empty value, what [model_start] computes for it is that value
    followed by one space: every generated fragment is dropped. *)
Theorem config_options_env_drops_fragments (environ : gmap string string)
    (previous : string) (opts : list string) :
  environ !! "BENTOML_CONFIG_OPTIONS" = Some previous ->
  previous <> EmptyString ->
  _bentoml_config_options_env environ opts = previous ++ " ".
Proof.
  intros Henv Hne. unfold _bentoml_config_options_env. rewrite Henv. simpl.
  destruct previous; [contradiction|reflexivity].
Qed.

Lemma config_options_env_drops_fragments_witness :
  config_options (fun x : Z => PyStr.str_int x)
    {["BENTOML_CONFIG_OPTIONS" := "api_server.workers=2"]}
    (Build_SDConfig Z "opt" "opt" "lowercase" false 3600 1%Z
       EmptyString "[]" EmptyString)
    30 1%Z (Some ["0"; "1"])
  = "api_server.workers=2 ".
Proof.
  exact (config_options_env_drops_fragments
           {["BENTOML_CONFIG_OPTIONS" := "api_server.workers=2"]}
           "api_server.workers=2"
           (_bentoml_config_options_opts (fun x : Z => PyStr.str_int x)
              (Build_SDConfig Z "opt" "opt" "lowercase" false 3600 1%Z
                 EmptyString "[]" EmptyString)
              30 1%Z (Some ["0"; "1"]))
           eq_refl ltac:(discriminate)).
Defined.

(** At the same input the value asked for keeps every fragment. *)
Example config_options_spec_run :
  config_options_spec {["BENTOML_CONFIG_OPTIONS" := "api_server.workers=2"]}
    ["tracing.sample_rate=1.0"; "api_server.traffic.timeout=30"]
  = "api_server.workers=2 tracing.sample_rate=1.0 api_server.traffic.timeout=30".
Proof. vm_compute. reflexivity. Qed.

(** X3. When the variable is unset or empty the code and the value
    asked for agree: the fragments joined by spaces. *)
Lemma config_options_env_fresh (environ : gmap string string) (opts : list string) :
  environ !! "BENTOML_CONFIG_OPTIONS" = None
  \/ environ !! "BENTOML_CONFIG_OPTIONS" = Some EmptyString ->
  _bentoml_config_options_env environ opts = PyStr.join " " opts
  /\ config_options_spec environ opts = PyStr.join " " opts.
Proof.
  intros [Henv|Henv]; unfold _bentoml_config_options_env, config_options_spec;
    rewrite Henv; simpl; done.
Qed.

Lemma config_options_env_fresh_witness :
  _bentoml_config_options_env ∅ ["tracing.sample_rate=1.0"; "api_server.traffic.timeout=30"]
  = "tracing.sample_rate=1.0 api_server.traffic.timeout=30"
  /\ config_options_spec ∅ ["tracing.sample_rate=1.0"; "api_server.traffic.timeout=30"]
     = "tracing.sample_rate=1.0 api_server.traffic.timeout=30".
Proof.
  exact (config_options_env_fresh ∅
           ["tracing.sample_rate=1.0"; "api_server.traffic.timeout=30"]
           (or_introl eq_refl)).
Defined.

(** ** More on the device callback *)

Lemma contains_char_any (c : ascii) (s : string) :
  PyStr.contains_char c s = any_char (Ascii.eqb c) s.
Proof.
  induction s as [|a s IH]; simpl; [done|].
  rewrite IH, (Ascii.eqb_sym a c). by destruct (Ascii.eqb c a).
Qed.

(** A character that is not in [s] is in no piece of [s]. *)
Lemma fields_pieces_without (q sep : ascii -> bool) (s : string) :
  any_char q s = false ->
  Forall (fun w => any_char q w = false) (PyStr.fields sep s).
Proof.
  induction s as [|c s IH]; simpl; intros Hq.
  - by repeat constructor.
  - apply orb_false_iff in Hq as [Hc Hs]. specialize (IH Hs).
    destruct (sep c).
    + by constructor.
    + destruct (PyStr.fields sep s) as [|w ws].
      * repeat constructor. simpl. by rewrite Hc.
      * apply Forall_cons in IH as [Hw Hws]. constructor; [|done].
        simpl. by rewrite Hc, Hw.
Qed.

(** No piece holds a separator. *)
Lemma fields_pieces_no_sep (sep : ascii -> bool) (s : string) :
  Forall (fun w => any_char sep w = false) (PyStr.fields sep s).
Proof.
  induction s as [|c s IH]; simpl.
  - by repeat constructor.
  - destruct (sep c) eqn:Hc.
    + by constructor.
    + destruct (PyStr.fields sep s) as [|w ws].
      * repeat constructor. simpl. by rewrite Hc.
      * apply Forall_cons in IH as [Hw Hws]. constructor; [|done].
        simpl. by rewrite Hc, Hw.
Qed.

(** A string without separator is its own single piece. *)
Lemma fields_whole (sep : ascii -> bool) (s : string) :
  any_char sep s = false -> PyStr.fields sep s = [s].
Proof.
  induction s as [|c s IH]; simpl; intros Hs; [done|].
  apply orb_false_iff in Hs as [Hc Hs]. by rewrite Hc, (IH Hs).
Qed.

Lemma fields_app_sep (sep : ascii -> bool) (c : ascii) (x rest : string) :
  any_char sep x = false -> sep c = true ->
  PyStr.fields sep (x ++ String c rest) = x :: PyStr.fields sep rest.
Proof.
  intros Hx Hc. induction x as [|a x IH]; simpl in *.
  - by rewrite Hc.
  - apply orb_false_iff in Hx as [Ha Hx]. by rewrite Ha, (IH Hx).
Qed.

(** Splitting undoes joining, for parts that hold no separator. *)
Lemma fields_join (c : ascii) (parts : list string) :
  parts <> [] ->
  Forall (fun w => any_char (Ascii.eqb c) w = false) parts ->
  PyStr.fields (Ascii.eqb c) (PyStr.join (String c EmptyString) parts) = parts.
Proof.
  intros Hne Hall. induction parts as [|x parts IH]; [done|].
  apply Forall_cons in Hall as [Hx Hall].
  destruct parts as [|y parts].
  - simpl. by apply fields_whole.
  - change (PyStr.join (String c EmptyString) (x :: y :: parts))
      with (x ++ String c (PyStr.join (String c EmptyString) (y :: parts))).
    rewrite fields_app_sep; [|done|apply Ascii.eqb_refl].
    by rewrite IH.
Qed.

Lemma filter_truthy_all (l : list string) :
  Forall (fun w => w <> EmptyString) l -> List.filter PyStr.truthy l = l.
Proof.
  induction 1 as [|w l Hw _ IH]; simpl; [done|].
  destruct w; [done|]. simpl. by rewrite IH.
Qed.

Lemma token_parts_plain (v : string) : plain_id v -> token_parts v = [v].
Proof.
  intros (Hne & Hcomma & Hspace). unfold token_parts.
  destruct (String.eqb_spec v ",") as [->|_]; [done|].
  rewrite Hcomma. unfold PyStr.split_whitespace.
  rewrite (fields_whole _ _ Hspace). destruct v; [done|reflexivity].
Qed.

Lemma device_tokens_plain (value : list string) :
  Forall plain_id value -> device_tokens value = value.
Proof.
  unfold device_tokens. induction 1 as [|v value Hv _ IH]; simpl; [done|].
  by rewrite (token_parts_plain _ Hv), IH.
Qed.

Lemma token_parts_clean (v : string) :
  Forall (fun tok => tok <> EmptyString /\ PyStr.contains_char "," tok = false)
    (token_parts v).
Proof.
  assert (Hfilter : forall l : list string,
            Forall (fun w => PyStr.contains_char "," w = false) l ->
            Forall (fun tok => tok <> EmptyString /\ PyStr.contains_char "," tok = false)
              (List.filter PyStr.truthy l)).
  { induction 1 as [|w l Hw _ IH]; simpl; [constructor|].
    destruct w; simpl; [done|]. by constructor. }
  unfold token_parts. destruct (String.eqb v ","); [constructor|].
  destruct (PyStr.contains_char "," v) eqn:Hcomma.
  - apply Hfilter. unfold PyStr.split_comma.
    eapply Forall_impl; [apply fields_pieces_no_sep|].
    intros w Hw. by rewrite contains_char_any.
  - apply Hfilter. unfold PyStr.split_whitespace.
    assert (Hpieces : Forall (fun w => PyStr.contains_char "," w = false)
                        (PyStr.fields PyStr.isspace v)).
    { eapply Forall_impl; [apply (fields_pieces_without (Ascii.eqb ","))|].
      - by rewrite <- contains_char_any.
      - intros w Hw. by rewrite contains_char_any. }
    induction Hpieces as [|w l Hw _ IH]; simpl; [constructor|].
    destruct (PyStr.truthy w); [by constructor|done].
Qed.

(** X5. Whatever tuple the callback returns, each of its tokens is not
    empty and holds no comma. *)
Theorem parse_device_callback_clean {gpu_report : Type} (gpu_count : gpu_report)
    (params_repr : string) (value ids : list string) :
  parse_device_callback gpu_count params_repr (VTuple value) = Ok (DeviceTuple ids) ->
  Forall (fun tok => tok <> EmptyString /\ PyStr.contains_char "," tok = false) ids.
Proof.
  unfold parse_device_callback.
  destruct ((length value =? 1)%nat && String.eqb (nth 0 value EmptyString) "all");
    [discriminate|].
  intros [= <-]. rewrite parse_device_tokens. unfold device_tokens.
  induction value as [|v value IH]; simpl; [constructor|].
  apply Forall_app. split; [apply token_parts_clean|done].
Qed.

Lemma parse_device_callback_clean_witness :
  Forall (fun tok => tok <> EmptyString /\ PyStr.contains_char "," tok = false)
    ["0"; " 1"; "2"; "3"].
Proof.
  exact (parse_device_callback_clean 2%nat "device" ["0, 1,,"; ","; " 2  3 "]
           ["0"; " 1"; "2"; "3"] eq_refl).
Defined.

Lemma callback_plain {gpu_report : Type} (gpu_count : gpu_report)
    (params_repr : string) (value : list string) :
  Forall plain_id value ->
  value <> ["all"] ->
  parse_device_callback gpu_count params_repr (VTuple value) = Ok (DeviceTuple value).
Proof.
  intros Hplain Hne. unfold parse_device_callback.
  rewrite sentinel_test by done.
  by rewrite parse_device_tokens, device_tokens_plain.
Qed.

Lemma any_char_app_sep (p : ascii -> bool) (c : ascii) (x rest : string) :
  p c = true -> any_char p (x ++ String c rest) = true.
Proof.
  intros Hc. induction x as [|a x IH]; simpl.
  - by rewrite Hc.
  - rewrite IH. apply orb_true_r.
Qed.

Lemma join_comma_cons (x y : string) (ids : list string) :
  PyStr.join "," (x :: y :: ids) = x ++ String "," (PyStr.join "," (y :: ids)).
Proof. reflexivity. Qed.

Lemma callback_joined {gpu_report : Type} (gpu_count : gpu_report)
    (params_repr : string) (ids : list string) :
  Forall plain_id ids ->
  ids <> [] ->
  ids <> ["all"] ->
  parse_device_callback gpu_count params_repr (VTuple [PyStr.join "," ids])
  = Ok (DeviceTuple ids).
Proof.
  intros Hplain Hne Hall. destruct ids as [|x [|y ids]]; [done| |].
  - change (PyStr.join "," [x]) with x. by apply callback_plain.
  - set (tok := PyStr.join "," (x :: y :: ids)).
    assert (Hfields : PyStr.split_comma tok = x :: y :: ids).
    { unfold PyStr.split_comma, tok. apply fields_join; [done|].
      eapply Forall_impl; [exact Hplain|]. intros w (_ & Hw & _).
      by rewrite <- contains_char_any. }
    assert (Hcomma : PyStr.contains_char "," tok = true).
    { rewrite contains_char_any. unfold tok. rewrite join_comma_cons.
      apply any_char_app_sep. apply Ascii.eqb_refl. }
    assert (Htok : String.eqb tok "," = false).
    { apply String.eqb_neq. intros Heq.
      assert (Hx : plain_id x) by (by apply Forall_cons in Hplain as [? _]).
      destruct Hx as (Hxne & _). unfold tok in Heq. rewrite join_comma_cons in Heq.
      destruct x as [|a [|b x]]; [done| |]; simpl in Heq; discriminate. }
    assert (Hsent : String.eqb tok "all" = false).
    { apply String.eqb_neq. intros Heq. rewrite Heq in Hcomma. discriminate. }
    unfold parse_device_callback. cbn [length Nat.eqb nth andb]. rewrite Hsent.
    unfold parse_tokens. cbn [fold_left app]. unfold parse_token.
    rewrite Htok, Hcomma, Hfields.
    rewrite filter_truthy_all; [done|].
    eapply Forall_impl; [exact Hplain|]. by intros w (? & _).
Qed.

(** X6. A tuple of plain identifiers, other than the single token [all],
    comes back as it is. *)
Theorem parse_device_callback_plain {gpu_report : Type} (gpu_count : gpu_report)
    (params_repr : string) (value : list string) :
  Forall plain_id value ->
  value <> ["all"] ->
  parse_device_callback gpu_count params_repr (VTuple value) = Ok (DeviceTuple value).
Proof. apply callback_plain. Qed.

Lemma plain_id_dec (s : string) :
  PyStr.truthy s && negb (PyStr.contains_char "," s)
  && negb (any_char PyStr.isspace s) = true ->
  plain_id s.
Proof.
  intros H. apply andb_prop in H as [H H3]. apply andb_prop in H as [H1 H2].
  apply negb_true_iff in H2, H3. repeat split; [|done|done].
  intros ->. discriminate.
Qed.

Lemma parse_device_callback_plain_witness :
  parse_device_callback 2%nat "device" (VTuple ["0"; "GPU-1f"; "all"])
  = Ok (DeviceTuple ["0"; "GPU-1f"; "all"]).
Proof.
  apply (parse_device_callback_plain 2%nat "device" ["0"; "GPU-1f"; "all"]).
  - repeat constructor; apply plain_id_dec; reflexivity.
  - discriminate.
Defined.

(** X7. Plain identifiers given as one comma-separated token, the way
    [CUDA_VISIBLE_DEVICES] holds them, give the same tuple as the
    identifiers given one by one. *)
Theorem parse_device_callback_joined {gpu_report : Type} (gpu_count : gpu_report)
    (params_repr : string) (ids : list string) :
  Forall plain_id ids ->
  ids <> [] ->
  ids <> ["all"] ->
  parse_device_callback gpu_count params_repr (VTuple [PyStr.join "," ids])
  = parse_device_callback gpu_count params_repr (VTuple ids)
  /\ parse_device_callback gpu_count params_repr (VTuple ids) = Ok (DeviceTuple ids).
Proof.
  intros Hplain Hne Hall.
  rewrite (callback_plain gpu_count params_repr ids Hplain Hall).
  split; [by apply callback_joined|done].
Qed.

Lemma parse_device_callback_joined_witness :
  parse_device_callback 2%nat "device" (VTuple ["0,1,3"])
  = parse_device_callback 2%nat "device" (VTuple ["0"; "1"; "3"])
  /\ parse_device_callback 2%nat "device" (VTuple ["0"; "1"; "3"])
     = Ok (DeviceTuple ["0"; "1"; "3"]).
Proof.
  apply (parse_device_callback_joined 2%nat "device" ["0"; "1"; "3"]).
  - repeat constructor; apply plain_id_dec; reflexivity.
  - discriminate.
  - discriminate.
Defined.

(** ** More on the middleware layers *)

Lemma common_params_apply_flags {A : Type} (f : M A) (quiet debug : bool) (w : world) :
  SDServerCommandGroup.common_params f quiet debug w = f (apply_flags quiet debug w).
Proof.
  unfold SDServerCommandGroup.common_params, apply_flags, bind.
  destruct w as [ech warn trk t q d srv].
  destruct quiet, debug; simpl; try reflexivity.
Qed.

(** X8. The flag layer always runs the wrapped function, in a world
    where the flags have been applied: [--quiet] wins over [--debug]
    (debug mode is then left as it was and a warning is logged), a flag
    never turns a mode off, and nothing else changes. *)
Theorem common_params_quiet_wins {A : Type} (f : M A) (quiet debug : bool) (w : world) :
  exists w0 : world,
    SDServerCommandGroup.common_params f quiet debug w = f w0
    /\ quiet_mode w0 = quiet || quiet_mode w
    /\ debug_mode w0 = (negb quiet && debug) || debug_mode w
    /\ warned w0
       = (warned w ++ if quiet && debug
                      then ["'--quiet' passed; ignoring '--verbose/--debug'"]
                      else [])%list
    /\ echoed w0 = echoed w /\ tracked w0 = tracked w /\ now w0 = now w
    /\ servers_started w0 = servers_started w.
Proof.
  exists (apply_flags quiet debug w). split; [apply common_params_apply_flags|].
  simpl. repeat split. destruct (quiet && debug); [done|by rewrite app_nil_r].
Qed.

(** X9. With tracking on and a named group, a wrapped call that returns
    [v] makes the telemetry layer return [v] after one event that
    carries the elapsed time and nothing about an error. *)
Theorem usage_tracking_records_success {A : Type}
    (OpenllmCliEvent : string -> string -> CliEvent) (func : M A)
    (group command : string) (v : A) (w w' : world) :
  func w = (Ok v, w') ->
  SDServerCommandGroup.usage_tracking OpenllmCliEvent func (Some group) command false w
  = (Ok v,
     snd (track (set_duration_in_ms (Qmake (w'.(now) - w.(now)) 1000000)
                   (OpenllmCliEvent group command)) w')).
Proof.
  intros Hf. unfold SDServerCommandGroup.usage_tracking, bind, time_ns,
    try_except_Exception. simpl. by rewrite Hf.
Qed.

Lemma usage_tracking_records_success_witness :
  SDServerCommandGroup.usage_tracking (fun g c => Build_CliEvent g c None None None)
    (fun w => (Ok 7%nat,
               {| echoed := echoed w; warned := warned w; tracked := tracked w;
                  now := (now w + 2500000)%Z; quiet_mode := quiet_mode w;
                  debug_mode := debug_mode w; servers_started := servers_started w |}))
    (Some "start") "opt" false (initial_world 5)
  = (Ok 7%nat,
     {| echoed := []; warned := [];
        tracked := [{| cmd_group := "start"; cmd_name := "opt";
                       duration_in_ms := Some (Qmake 2500000 1000000);
                       error_type := None; return_code := None |}];
        now := 2500005; quiet_mode := false; debug_mode := false;
        servers_started := 0 |}).
Proof.
  exact (usage_tracking_records_success (fun g c => Build_CliEvent g c None None None)
           (fun w => (Ok 7%nat,
               {| echoed := echoed w; warned := warned w; tracked := tracked w;
                  now := (now w + 2500000)%Z; quiet_mode := quiet_mode w;
                  debug_mode := debug_mode w; servers_started := servers_started w |}))
           "start" "opt" 7%nat (initial_world 5) _ eq_refl).
Defined.

(** With tracking on and a group without name, the telemetry layer
    fails its assertion before the wrapped call: the call never runs and
    the world stays as it was. *)
Theorem usage_tracking_unnamed_group {A : Type}
    (OpenllmCliEvent : string -> string -> CliEvent) (func : M A)
    (command : string) (w : world) :
  SDServerCommandGroup.usage_tracking OpenllmCliEvent func None command false w
  = (Raise (AssertionError "group.name should not be None"), w).
Proof. reflexivity. Qed.

(** X2. For a named group the telemetry layer is transparent: the
    outcome is that of the wrapped call, value or exception, and the
    world is the one the call left, but for at most one event added
    after those the call emitted itself. *)
Theorem usage_tracking_transparent {A : Type}
    (OpenllmCliEvent : string -> string -> CliEvent) (func : M A)
    (group command : string) (do_not_track : bool) (w : world) :
  let out := SDServerCommandGroup.usage_tracking OpenllmCliEvent func (Some group)
               command do_not_track w in
  fst out = fst (func w)
  /\ (exists evs : list CliEvent,
        tracked (snd out) = (tracked (snd (func w)) ++ evs)%list
        /\ (length evs <= 1)%nat)
  /\ echoed (snd out) = echoed (snd (func w))
  /\ warned (snd out) = warned (snd (func w))
  /\ now (snd out) = now (snd (func w))
  /\ quiet_mode (snd out) = quiet_mode (snd (func w))
  /\ debug_mode (snd out) = debug_mode (snd (func w))
  /\ servers_started (snd out) = servers_started (snd (func w)).
Proof.
  intros out. subst out.
  unfold SDServerCommandGroup.usage_tracking, bind, time_ns, try_except_Exception.
  destruct do_not_track; simpl.
  - repeat split. exists []. split; [by rewrite app_nil_r|simpl; lia].
  - destruct (func w) as [[v|e] w'] eqn:Hf; simpl.
    + repeat split. eexists [_]. split; [reflexivity|simpl; lia].
    + destruct (is_Exception e) eqn:He; simpl.
      * repeat split. eexists [_]. split; [reflexivity|simpl; lia].
      * repeat split. exists []. split; [by rewrite app_nil_r|simpl; lia].
Qed.

(** X11. The error-translation layer leaves every other outcome alone:
    a returned value comes back (as [Some]), and an exception that is
    neither the domain exception nor [KeyboardInterrupt] is raised again
    unchanged. *)
Theorem exception_handling_passes_through {A : Type} (func : M A)
    (group : option string) (command : string) (w w' : world) :
  (forall v : A, func w = (Ok v, w') ->
     SDServerCommandGroup.exception_handling func group command w = (Ok (Some v), w'))
  /\ (forall e : exn, func w = (Raise e, w') ->
        (forall m, e <> SDServerException m) -> e <> KeyboardInterrupt ->
        SDServerCommandGroup.exception_handling func group command w = (Raise e, w')).
Proof.
  split.
  - intros v Hf. unfold SDServerCommandGroup.exception_handling. by rewrite Hf.
  - intros e Hf Hdom Hint. unfold SDServerCommandGroup.exception_handling. rewrite Hf.
    destruct e as [m| | | | | | | | |]; try reflexivity.
    + exfalso. by apply (Hdom m).
    + done.
Qed.

Lemma exception_handling_passes_through_witness :
  SDServerCommandGroup.exception_handling (ret 3%nat) (Some "start") "opt" (initial_world 0)
  = (Ok (Some 3%nat), initial_world 0)
  /\ SDServerCommandGroup.exception_handling
       (raise (A := nat) (BadArgumentUsage "no such option")) (Some "start") "opt"
       (initial_world 0)
     = (Raise (BadArgumentUsage "no such option"), initial_world 0).
Proof.
  split.
  - exact (proj1 (exception_handling_passes_through (ret 3%nat) (Some "start") "opt"
                    (initial_world 0) (initial_world 0)) 3%nat eq_refl).
  - exact (proj2 (exception_handling_passes_through
                    (raise (A := nat) (BadArgumentUsage "no such option"))
                    (Some "start") "opt" (initial_world 0) (initial_world 0))
             (BadArgumentUsage "no such option") eq_refl
             ltac:(discriminate) ltac:(discriminate)).
Defined.

(** X4. The three layers together, tracking on: when the handler, run
    with the flags applied, raises the domain exception with message
    [m], the command emits one event with the class name and return
    code 1 and ends in a [ClickException] with the styled message; the
    failure is seen by both outer layers. *)
Theorem command_domain_error {A : Type}
    (OpenllmCliEvent : string -> string -> CliEvent) (f : M A)
    (group name m : string) (quiet debug : bool) (w w' : world) :
  f (apply_flags quiet debug w) = (Raise (SDServerException m), w') ->
  SDServerCommandGroup.command OpenllmCliEvent f (Some group) name quiet debug false w
  = (Raise (ClickException
              (click_style_red ("[" ++ group ++ "] '" ++ name ++ "' failed: " ++ m))),
     snd (track
            (set_return_code 1
               (set_error_type "SDServerException"
                  (set_duration_in_ms (Qmake (w'.(now) - w.(now)) 1000000)
                     (OpenllmCliEvent group name)))) w')).
Proof.
  intros Hf. unfold SDServerCommandGroup.command, SDServerCommandGroup.exception_handling.
  rewrite (usage_tracking_records_exception OpenllmCliEvent _ group name
             (SDServerException m) w w'); [reflexivity| |reflexivity].
  by rewrite common_params_apply_flags.
Qed.

Lemma command_domain_error_witness :
  SDServerCommandGroup.command (fun g c => Build_CliEvent g c None None None)
    (raise (A := unit) (SDServerException "bad weight")) (Some "start") "opt"
    true true false (initial_world 5)
  = (Raise (ClickException (click_style_red "[start] 'opt' failed: bad weight")),
     {| echoed := [];
        warned := ["'--quiet' passed; ignoring '--verbose/--debug'"];
        tracked := [{| cmd_group := "start"; cmd_name := "opt";
                       duration_in_ms := Some (Qmake 0 1000000);
                       error_type := Some "SDServerException";
                       return_code := Some 1%Z |}];
        now := 5; quiet_mode := true; debug_mode := false; servers_started := 0 |}).
Proof.
  exact (command_domain_error (fun g c => Build_CliEvent g c None None None)
           (raise (A := unit) (SDServerException "bad weight")) "start" "opt"
           "bad weight" true true (initial_world 5) _ eq_refl).
Defined.

(** X12. The three layers together, tracking on or off: when the
    handler, run with the flags applied, raises [KeyboardInterrupt], the
    command ends normally with [None], in the world the handler left:
    no event is emitted and no message is printed. *)
Theorem command_interrupt {A : Type}
    (OpenllmCliEvent : string -> string -> CliEvent) (f : M A)
    (group name : string) (quiet debug do_not_track : bool) (w w' : world) :
  f (apply_flags quiet debug w) = (Raise KeyboardInterrupt, w') ->
  SDServerCommandGroup.command OpenllmCliEvent f (Some group) name
    quiet debug do_not_track w
  = (Ok None, w').
Proof.
  intros Hf. unfold SDServerCommandGroup.command, SDServerCommandGroup.exception_handling.
  assert (Hin : SDServerCommandGroup.usage_tracking OpenllmCliEvent
                  (SDServerCommandGroup.common_params f quiet debug) (Some group) name
                  do_not_track w = (Raise KeyboardInterrupt, w')).
  { destruct do_not_track.
    - simpl. by rewrite common_params_apply_flags.
    - unfold SDServerCommandGroup.usage_tracking, bind, time_ns, try_except_Exception.
      simpl. by rewrite common_params_apply_flags, Hf. }
  by rewrite Hin.
Qed.

Lemma command_interrupt_witness :
  SDServerCommandGroup.command (fun g c => Build_CliEvent g c None None None)
    (raise (A := unit) KeyboardInterrupt) (Some "start") "opt"
    false false false (initial_world 5)
  = (Ok None, initial_world 5).
Proof.
  exact (command_interrupt (fun g c => Build_CliEvent g c None None None)
           (raise (A := unit) KeyboardInterrupt) "start" "opt"
           false false false (initial_world 5) (initial_world 5) eq_refl).
Defined.

(** ** More on the command registry *)

Lemma cached_fold_lookup {Cmd : Type} (build : string -> Cmd) (keys : list string)
    (cache : gmap string Cmd) (k : string) :
  fold_left (fun cache key => <[key := build key]> cache) keys cache !! k
  = if bool_decide (k ∈ keys) then Some (build k) else cache !! k.
Proof.
  revert cache. induction keys as [|x xs IH]; intros cache; cbn [fold_left].
  - rewrite bool_decide_eq_false_2; [done|]. apply not_elem_of_nil.
  - rewrite IH. destruct (decide (k ∈ xs)) as [Hin|Hnin].
    + rewrite (bool_decide_eq_true_2 _ Hin).
      rewrite bool_decide_eq_true_2; [done|]. by apply list_elem_of_further.
    + rewrite (bool_decide_eq_false_2 _ Hnin).
      destruct (decide (k = x)) as [->|Hne].
      * rewrite lookup_insert_eq. rewrite bool_decide_eq_true_2; [done|].
        apply list_elem_of_here.
      * rewrite lookup_insert_ne by done.
        rewrite bool_decide_eq_false_2; [done|].
        intros [?|?]%elem_of_cons; done.
Qed.

(** X13. With the cache filled from [CONFIG_MAPPING], the group [start]
    knows exactly the models of the mapping: a name whose canonical name
    is a key gets the command built for that key, any other name is a
    bad argument.  So every name that [list_commands] lists for [start]
    can be fetched, unless the alias map sends it elsewhere. *)
Theorem start_group_knows_config_mapping {Cmd : Type} (build : string -> Cmd)
    (CONFIG_MAPPING : list string) (_aliases : gmap string string)
    (super_get_command : SDServerCommandGroup.context -> string -> result (option Cmd))
    (super_list_commands : SDServerCommandGroup.context -> list string)
    (cmd_name : string) :
  let ctx := SDServerCommandGroup.Build_context (Some "start") in
  let canonical := SDServerCommandGroup.resolve_alias _aliases cmd_name in
  let found := SDServerCommandGroup.get_command _aliases
                 (Registry._cached_http build CONFIG_MAPPING)
                 super_get_command ctx cmd_name in
  (canonical ∈ CONFIG_MAPPING -> found = Ok (Some (build canonical)))
  /\ (canonical ∉ CONFIG_MAPPING ->
      found = Raise (BadArgumentUsage
                       (canonical ++ " is not a valid model identifier supported by OpenLLM.")))
  /\ (cmd_name ∈ Registry.list_commands CONFIG_MAPPING super_list_commands ctx ->
      _aliases !! cmd_name = None ->
      found = Ok (Some (build cmd_name))).
Proof.
  intros ctx canonical found. subst ctx canonical found.
  unfold SDServerCommandGroup.get_command, Registry._cached_http.
  cbn [SDServerCommandGroup.command_name].
  rewrite (bool_decide_eq_true_2 (Some "start" = Some "start")) by done.
  rewrite cached_fold_lookup, lookup_empty. split; [|split].
  - intros Hin. by rewrite bool_decide_eq_true_2.
  - intros Hnin. by rewrite bool_decide_eq_false_2.
  - unfold Registry.list_commands. cbn [SDServerCommandGroup.command_name].
    rewrite (bool_decide_eq_true_2 (Some "start" = Some "start")) by done.
    intros Hin Hnone.
    unfold SDServerCommandGroup.resolve_alias. rewrite Hnone.
    cbn [default from_option]. by rewrite bool_decide_eq_true_2.
Qed.

Lemma start_group_knows_config_mapping_witness :
  SDServerCommandGroup.get_command {["stable-diffusion" := "stable_diffusion"]}
    (Registry._cached_http String.length ["stable_diffusion"; "stable_diffusion_xl"])
    (fun _ _ => Ok None) (SDServerCommandGroup.Build_context (Some "start"))
    "stable-diffusion"
  = Ok (Some 16%nat)
  /\ SDServerCommandGroup.get_command {["stable-diffusion" := "stable_diffusion"]}
       (Registry._cached_http String.length ["stable_diffusion"; "stable_diffusion_xl"])
       (fun _ _ => Ok None) (SDServerCommandGroup.Build_context (Some "start"))
       "opt"
     = Raise (BadArgumentUsage "opt is not a valid model identifier supported by OpenLLM.").
Proof.
  assert (Hin : SDServerCommandGroup.resolve_alias
                  {["stable-diffusion" := "stable_diffusion"]} "stable-diffusion"
                ∈ ["stable_diffusion"; "stable_diffusion_xl"]).
  { vm_compute. apply list_elem_of_here. }
  assert (Hnin : SDServerCommandGroup.resolve_alias
                   {["stable-diffusion" := "stable_diffusion"]} "opt"
                 ∉ ["stable_diffusion"; "stable_diffusion_xl"]).
  { vm_compute. intros H. repeat (apply elem_of_cons in H as [H|H]; [discriminate|]).
    by apply elem_of_nil in H. }
  split.
  - exact (proj1 (start_group_knows_config_mapping String.length
                    ["stable_diffusion"; "stable_diffusion_xl"]
                    {["stable-diffusion" := "stable_diffusion"]}
                    (fun _ _ => Ok None) (fun _ => []) "stable-diffusion") Hin).
  - exact (proj1 (proj2 (start_group_knows_config_mapping String.length
                    ["stable_diffusion"; "stable_diffusion_xl"]
                    {["stable-diffusion" := "stable_diffusion"]}
                    (fun _ _ => Ok None) (fun _ => []) "opt")) Hnin).
Defined.

Lemma aliases_fold_lookup (cmd_name : string) (aliases : list string)
    (m : gmap string string) (a : string) :
  fold_left (fun m alias => <[alias := cmd_name]> m) aliases m !! a
  = if bool_decide (a ∈ aliases) then Some cmd_name else m !! a.
Proof.
  revert m. induction aliases as [|x xs IH]; intros m; cbn [fold_left].
  - rewrite bool_decide_eq_false_2; [done|]. apply not_elem_of_nil.
  - rewrite IH. destruct (decide (a ∈ xs)) as [Hin|Hnin].
    + rewrite (bool_decide_eq_true_2 _ Hin).
      rewrite bool_decide_eq_true_2; [done|]. by apply list_elem_of_further.
    + rewrite (bool_decide_eq_false_2 _ Hnin).
      destruct (decide (a = x)) as [->|Hne].
      * rewrite lookup_insert_eq. rewrite bool_decide_eq_true_2; [done|].
        apply list_elem_of_here.
      * rewrite lookup_insert_ne by done.
        rewrite bool_decide_eq_false_2; [done|].
        intros [?|?]%elem_of_cons; done.
Qed.

(** X14. Registering a command with aliases, under a name that is not
    empty, makes every alias resolve to that name and leaves the
    resolution of every other name as it was; the aliases are kept
    under the name.  Under an empty name it fails its assertion. *)
Theorem record_aliases_resolve (cmd_name : string) (aliases : list string)
    (st : Registry.group_state) :
  (cmd_name <> EmptyString ->
   exists st' : Registry.group_state,
     Registry.record_aliases cmd_name (Some aliases) st = Ok st'
     /\ Registry._commands st' !! cmd_name = Some aliases
     /\ (forall a : string, a ∈ aliases ->
           SDServerCommandGroup.resolve_alias (Registry._aliases st') a = cmd_name)
     /\ (forall a : string, a ∉ aliases ->
           SDServerCommandGroup.resolve_alias (Registry._aliases st') a
           = SDServerCommandGroup.resolve_alias (Registry._aliases st) a))
  /\ Registry.record_aliases EmptyString (Some aliases) st
     = Raise (AssertionError EmptyString).
Proof.
  split; [|reflexivity]. intros Hne. unfold Registry.record_aliases.
  destruct cmd_name as [|c cmd_name]; [done|]. simpl. eexists. split; [reflexivity|].
  simpl. split; [by rewrite lookup_insert_eq|]. split.
  - intros a Hin. unfold SDServerCommandGroup.resolve_alias.
    rewrite aliases_fold_lookup. by rewrite bool_decide_eq_true_2.
  - intros a Hnin. unfold SDServerCommandGroup.resolve_alias.
    rewrite aliases_fold_lookup. by rewrite bool_decide_eq_false_2.
Qed.

Lemma record_aliases_resolve_witness :
  exists st' : Registry.group_state,
    Registry.record_aliases "stable_diffusion" (Some ["stable-diffusion"; "sd"])
      (Registry.Build_group_state ∅ {["opt-alias" := "opt"]}) = Ok st'
    /\ Registry._commands st' !! "stable_diffusion" = Some ["stable-diffusion"; "sd"]
    /\ (forall a : string, a ∈ ["stable-diffusion"; "sd"] ->
          SDServerCommandGroup.resolve_alias (Registry._aliases st') a = "stable_diffusion")
    /\ (forall a : string, a ∉ ["stable-diffusion"; "sd"] ->
          SDServerCommandGroup.resolve_alias (Registry._aliases st') a
          = SDServerCommandGroup.resolve_alias {["opt-alias" := "opt"]} a).
Proof.
  exact (proj1 (record_aliases_resolve "stable_diffusion" ["stable-diffusion"; "sd"]
                  (Registry.Build_group_state ∅ {["opt-alias" := "opt"]}))
           ltac:(discriminate)).
Defined.

(** X15. Moving the common parameters to the front loses and repeats
    nothing, whatever the length of the list; when the list ends with
    the three common parameters, they come first and the parameters of
    the handler follow, each group in its order. *)
Theorem reorder_params_rotates {A : Type} (click_params : list A) :
  Registry.reorder_params click_params ≡ₚ click_params
  /\ (forall (handler : list A) (c1 c2 c3 : A),
        click_params = (handler ++ [c1; c2; c3])%list ->
        Registry.reorder_params click_params = ([c1; c2; c3] ++ handler)%list).
Proof.
  unfold Registry.reorder_params, Registry.last_n, Registry.but_last_n. split.
  - rewrite Permutation_app_comm. by rewrite take_drop.
  - intros handler c1 c2 c3 ->. rewrite length_app. simpl.
    replace (length handler + 3 - Registry.NUMBER_OF_COMMON_PARAMS)%nat
      with (length handler) by (unfold Registry.NUMBER_OF_COMMON_PARAMS; lia).
    by rewrite drop_app_length, take_app_length.
Qed.

Lemma reorder_params_rotates_witness :
  Registry.reorder_params ["device"; "fast"; "do_not_track"; "debug"; "quiet"]
  = ["do_not_track"; "debug"; "quiet"; "device"; "fast"].
Proof.
  exact (proj2 (reorder_params_rotates
                  ["device"; "fast"; "do_not_track"; "debug"; "quiet"])
           ["device"; "fast"] "do_not_track" "debug" "quiet" eq_refl).
Defined.

(** ** download_models *)

Section DownloadProperties.
Variable DEBUG : bool.
Variable orjson_dumps : list (string * json_value) -> string.
Variable load_model : string -> option string -> M (string * Model).
Variable transformers_get : Model -> M Ref.
Variable import_model : Model -> M Ref.
Variable cuda_available : M bool.
Variable empty_cache : M unit.

Local Abbreviation download :=
  (download_models DEBUG orjson_dumps load_model transformers_get
     import_model cuda_available empty_cache).
Local Abbreviation cleanup := (release cuda_available empty_cache).

Lemma download_unfold (model_name : string) (model_id : option string)
    (output envvar : string) (model : Model) (w w1 : world) :
  load_model model_name model_id (loading_world output w) = (Ok (envvar, model), w1) ->
  download model_name model_id output w
  = try_finally
      (try_except_NotFound
         (already_setup DEBUG orjson_dumps transformers_get output model_name envvar model)
         (save_to_store DEBUG orjson_dumps import_model output envvar model))
      cleanup w1.
Proof.
  intros Hload. unfold download_models, bind, loading_world in *.
  destruct (String.eqb output "porcelain"); simpl in *; by rewrite Hload.
Qed.

Lemma echo_tag_one_line (tag fg : string) (w : world) :
  echo_tag DEBUG tag fg w
  = _echo (if DEBUG || debug_mode w then "__tag__:" ++ tag else tag) fg w.
Proof.
  unfold echo_tag, bind, get_debug_mode. by destruct (DEBUG || debug_mode w).
Qed.

(** X18. When the model is loaded and the store has it, the command
    echoes exactly one line, runs the cleanup and returns the reference
    of the store; nothing is imported.  For the output [porcelain]
    quiet mode was turned on first and the line is the bare tag,
    prefixed by [__tag__:] in debug. *)
Theorem download_models_found (model_name : string) (model_id : option string)
    (output envvar : string) (model : Model) (_ref : Ref) (w w1 w2 : world) :
  load_model model_name model_id (loading_world output w) = (Ok (envvar, model), w1) ->
  transformers_get model w1 = (Ok _ref, w2) ->
  exists line fg : string,
    download model_name model_id output w
    = run_finally cleanup (Ok _ref) (snd (_echo line fg w2))
    /\ (output = "porcelain" ->
        quiet_mode (loading_world output w) = true
        /\ line = if DEBUG || debug_mode w2 then "__tag__:" ++ ref_tag _ref
                  else ref_tag _ref).
Proof.
  intros Hload Hget. rewrite (download_unfold _ _ _ _ _ _ _ Hload).
  unfold try_finally, try_except_NotFound, already_setup, bind. rewrite Hget.
  destruct (String.eqb_spec output "pretty") as [->|Hpretty].
  { eexists _, _. split; [reflexivity|discriminate]. }
  destruct (String.eqb_spec output "json") as [->|Hjson].
  { eexists _, _. split; [reflexivity|discriminate]. }
  rewrite echo_tag_one_line. eexists _, _. split; [reflexivity|].
  intros ->. split; reflexivity.
Qed.

(** X19. When the model is loaded and the store raises [NotFound], the
    model is imported and the command echoes exactly one line after the
    import, runs the cleanup and returns the imported reference.  Only
    the output [pretty] echoes a line before the import. *)
Theorem download_models_saved (model_name : string) (model_id : option string)
    (output envvar : string) (model : Model) (_ref : Ref) (e : exn)
    (w w1 w2 w3 : world) :
  load_model model_name model_id (loading_world output w) = (Ok (envvar, model), w1) ->
  transformers_get model w1 = (Raise e, w2) ->
  is_NotFound e = true ->
  import_model model
    (if String.eqb output "pretty"
     then snd (_echo ("'" ++ model_class model ++ "' with tag '" ++ model_tag model
                      ++ "' does not exists in local store!. Saving to store...")
                 "yellow" w2)
     else w2)
  = (Ok _ref, w3) ->
  exists line : string,
    download model_name model_id output w
    = run_finally cleanup (Ok _ref) (snd (_echo line "green" w3)).
Proof.
  intros Hload Hget He Himport. rewrite (download_unfold _ _ _ _ _ _ _ Hload).
  unfold try_finally, try_except_NotFound, already_setup, save_to_store, bind.
  rewrite Hget, He.
  destruct (String.eqb output "pretty").
  { simpl in *. rewrite Himport. by eexists. }
  simpl. rewrite Himport.
  destruct (String.eqb output "json"); [by eexists|].
  rewrite echo_tag_one_line. by eexists.
Qed.

(** X20. How [download_models] fails.  When loading the model raises,
    that exception comes out and the cleanup does not run.  When the
    store raises anything but [NotFound], nothing is imported or
    echoed: the cleanup runs and the exception comes out.  When the
    import raises, the cleanup runs and the exception comes out. *)
Theorem download_models_failures (model_name : string) (model_id : option string)
    (output envvar : string) (model : Model) (e : exn) (w w1 w2 w3 : world) :
  (load_model model_name model_id (loading_world output w) = (Raise e, w1) ->
   download model_name model_id output w = (Raise e, w1))
  /\ (load_model model_name model_id (loading_world output w) = (Ok (envvar, model), w1) ->
      transformers_get model w1 = (Raise e, w2) ->
      is_NotFound e = false ->
      download model_name model_id output w = run_finally cleanup (Raise e) w2)
  /\ (forall e' : exn,
        load_model model_name model_id (loading_world output w) = (Ok (envvar, model), w1) ->
        transformers_get model w1 = (Raise e', w2) ->
        is_NotFound e' = true ->
        import_model model
          (if String.eqb output "pretty"
           then snd (_echo ("'" ++ model_class model ++ "' with tag '" ++ model_tag model
                            ++ "' does not exists in local store!. Saving to store...")
                       "yellow" w2)
           else w2)
        = (Raise e, w3) ->
        download model_name model_id output w = run_finally cleanup (Raise e) w3).
Proof.
  split; [|split].
  - intros Hload. unfold download_models, bind, loading_world in *.
    destruct (String.eqb output "porcelain"); simpl in *; by rewrite Hload.
  - intros Hload Hget He. rewrite (download_unfold _ _ _ _ _ _ _ Hload).
    unfold try_finally, try_except_NotFound, already_setup, bind.
    by rewrite Hget, He.
  - intros e' Hload Hget He Himport. rewrite (download_unfold _ _ _ _ _ _ _ Hload).
    unfold try_finally, try_except_NotFound, already_setup, save_to_store, bind.
    rewrite Hget, He.
    destruct (String.eqb output "pretty"); simpl in *; by rewrite Himport.
Qed.
End DownloadProperties.

Lemma download_models_found_witness :
  exists line fg : string,
    download_models false (fun _ => "{}")
      (fun n _ => ret ("pt", {| model_tag := "pt-" ++ n; model_class := "SD" |}))
      (fun m => ret {| ref_tag := model_tag m |})
      (fun m => ret {| ref_tag := model_tag m |}) (ret false) (ret tt)
      "opt" None "porcelain" (initial_world 0)
    = run_finally (release (ret false) (ret tt)) (Ok {| ref_tag := "pt-opt" |})
        (snd (_echo line fg (snd (set_quiet_mode (initial_world 0)))))
    /\ ("porcelain" = "porcelain" ->
        quiet_mode (loading_world "porcelain" (initial_world 0)) = true
        /\ line = if false || debug_mode (snd (set_quiet_mode (initial_world 0)))
                  then "__tag__:" ++ "pt-opt" else "pt-opt").
Proof.
  exact (download_models_found false (fun _ => "{}")
           (fun n _ => ret ("pt", {| model_tag := "pt-" ++ n; model_class := "SD" |}))
           (fun m => ret {| ref_tag := model_tag m |})
           (fun m => ret {| ref_tag := model_tag m |}) (ret false) (ret tt)
           "opt" None "porcelain" "pt" {| model_tag := "pt-opt"; model_class := "SD" |}
           {| ref_tag := "pt-opt" |} (initial_world 0)
           (snd (set_quiet_mode (initial_world 0)))
           (snd (set_quiet_mode (initial_world 0))) eq_refl eq_refl).
Defined.

Lemma download_models_saved_witness :
  exists line : string,
    download_models false (fun _ => "{}")
      (fun n _ => ret ("pt", {| model_tag := "pt-" ++ n; model_class := "SD" |}))
      (fun _ => raise (OtherException "NotFound"))
      (fun m => ret {| ref_tag := model_tag m |}) (ret false) (ret tt)
      "opt" None "json" (initial_world 0)
    = run_finally (release (ret false) (ret tt)) (Ok {| ref_tag := "pt-opt" |})
        (snd (_echo line "green" (initial_world 0))).
Proof.
  exact (download_models_saved false (fun _ => "{}")
           (fun n _ => ret ("pt", {| model_tag := "pt-" ++ n; model_class := "SD" |}))
           (fun _ => raise (OtherException "NotFound"))
           (fun m => ret {| ref_tag := model_tag m |}) (ret false) (ret tt)
           "opt" None "json" "pt" {| model_tag := "pt-opt"; model_class := "SD" |}
           {| ref_tag := "pt-opt" |} (OtherException "NotFound")
           (initial_world 0) (initial_world 0) (initial_world 0) (initial_world 0)
           eq_refl eq_refl eq_refl eq_refl).
Defined.

Lemma download_models_failures_witness :
  download_models false (fun _ => "{}")
    (fun n _ => ret ("pt", {| model_tag := "pt-" ++ n; model_class := "SD" |}))
    (fun _ => raise (OtherException "BentoMLException"))
    (fun m => ret {| ref_tag := model_tag m |}) (ret false) (ret tt)
    "opt" None "pretty" (initial_world 0)
  = run_finally (release (ret false) (ret tt)) (Raise (OtherException "BentoMLException"))
      (initial_world 0).
Proof.
  exact (proj1 (proj2 (download_models_failures false (fun _ => "{}")
           (fun n _ => ret ("pt", {| model_tag := "pt-" ++ n; model_class := "SD" |}))
           (fun _ => raise (OtherException "BentoMLException"))
           (fun m => ret {| ref_tag := model_tag m |}) (ret false) (ret tt)
           "opt" None "pretty" "pt" {| model_tag := "pt-opt"; model_class := "SD" |}
           (OtherException "BentoMLException")
           (initial_world 0) (initial_world 0) (initial_world 0) (initial_world 0)))
           eq_refl eq_refl eq_refl).
Defined.

(** ** From the registered alias to the started model *)

(** X16. Take a key of [CONFIG_MAPPING] whose configuration is named
    like the key and asks for the dasherized name.  Once the command
    built for it has recorded its aliases, stub or not, the group
    [start] resolves the start name of the model to that command. *)
Theorem start_name_reaches_command {pyfloat gpu_report : Type}
    (OpenllmCliEvent : string -> string -> CliEvent)
    (for_model : string -> SDConfig pyfloat) (gpu_len : gpu_report -> nat)
    (track_start_init : pyobj pyfloat -> M unit) (model_start : M (pyobj pyfloat))
    (available_gpu : gpu_report) (CONFIG_MAPPING : list string)
    (super_get_command : SDServerCommandGroup.context -> string
                         -> result (option (Command pyfloat)))
    (st : Registry.group_state) (key : string) :
  key ∈ CONFIG_MAPPING ->
  key <> EmptyString ->
  model_name (for_model key) = key ->
  name_type (for_model key) = "dasherize" ->
  let build k := start_model_command OpenllmCliEvent for_model gpu_len track_start_init
                   model_start k available_gpu in
  exists st' : Registry.group_state,
    Registry.record_aliases (name (build key)) (aliases (build key)) st = Ok st'
    /\ SDServerCommandGroup.get_command (Registry._aliases st')
         (Registry._cached_http build CONFIG_MAPPING) super_get_command
         (SDServerCommandGroup.Build_context (Some "start"))
         (start_name (for_model key))
       = Ok (Some (build key)).
Proof.
  intros Hin Hne Hname Htype build.
  assert (Hcmd : name (build key) = key /\ aliases (build key)
                                           = Some [start_name (for_model key)]).
  { unfold build, start_model_command. rewrite Htype, Hname.
    by destruct (requires_gpu (for_model key) && (gpu_len available_gpu <? 1)%nat). }
  destruct Hcmd as [-> ->].
  unfold Registry.record_aliases. destruct key as [|c key]; [done|].
  cbn [PyStr.truthy fold_left]. eexists. split; [reflexivity|].
  cbn [Registry._aliases]. unfold SDServerCommandGroup.get_command.
  cbn [SDServerCommandGroup.command_name].
  rewrite (bool_decide_eq_true_2 (Some "start" = Some "start")) by done.
  unfold SDServerCommandGroup.resolve_alias. rewrite lookup_insert_eq.
  cbn [default from_option id]. unfold Registry._cached_http.
  rewrite cached_fold_lookup. by rewrite bool_decide_eq_true_2.
Qed.

Lemma start_name_reaches_command_witness :
  exists st' : Registry.group_state,
    Registry.record_aliases "stable_diffusion" (Some ["stable-diffusion"])
      (Registry.Build_group_state ∅ ∅) = Ok st'
    /\ SDServerCommandGroup.resolve_alias (Registry._aliases st') "stable-diffusion"
       = "stable_diffusion".
Proof.
  destruct (start_name_reaches_command (fun g c => Build_CliEvent g c None None None)
              (fun n => Build_SDConfig unit n "stable-diffusion" "dasherize" true 3600 tt
                          EmptyString "[]" EmptyString)
              (fun ids : list Z => length ids) (fun _ => ret tt) (ret ObjOther)
              [] ["stable_diffusion"] (fun _ _ => Ok None)
              (Registry.Build_group_state ∅ ∅) "stable_diffusion"
              ltac:(apply list_elem_of_here) ltac:(discriminate) eq_refl eq_refl)
    as (st' & Hrec & _).
  exists st'. split; [exact Hrec|].
  injection Hrec as <-. reflexivity.
Defined.

(** ** More on the configuration options *)

(** X17. The options handed to bentoml are the four general ones
    followed by one resource fragment per device, in order, and by
    nothing else: none when [--device] is absent or parses to the empty
    tuple, as a lone comma does.  Each fragment assigns its device at
    the GPU resource key of the runner of the model, without index when
    the device is the only one, at its position otherwise. *)
Theorem config_options_general_then_devices {pyfloat : Type}
    (str_float : pyfloat -> string) (config : SDConfig pyfloat)
    (server_timeout : Z) (workers : pyfloat) (device : option (list string)) :
  let ids := default [] device in
  let general :=
    ["tracing.sample_rate=1.0";
     "api_server.traffic.timeout=" ++ PyStr.str_int server_timeout;
     runner_key (start_name config) ++ ".traffic.timeout="
       ++ PyStr.str_int (timeout config);
     runner_key (start_name config) ++ ".workers_per_resource=" ++ str_float workers] in
  exists frags : list string,
    _bentoml_config_options_opts str_float config server_timeout workers device
    = List.app general frags
    /\ length frags = length ids
    /\ (forall (i : nat) (dev : string),
          ids !! i = Some dev ->
          frags !! i
          = Some (runner_key (start_name config) ++ gpu_key
                  ++ (if bool_decide (length ids = 1%nat)
                      then "=[" ++ dev ++ "]"
                      else "[" ++ PyStr.str_index i ++ "]=" ++ dev))).
Proof.
  intros ids general. subst ids general.
  exists (device_fragments (start_name config) device).
  split; [reflexivity|]. unfold device_fragments.
  destruct device as [[|d0 [|d1 device]]|]; cbn [default from_option id].
  - split; [reflexivity|]. intros i dev Hi. by rewrite lookup_nil in Hi.
  - split; [reflexivity|]. intros [|i] dev Hi; [|by rewrite lookup_cons, lookup_nil in Hi].
    injection Hi as <-. rewrite bool_decide_eq_true_2 by done. reflexivity.
  - cbn [length Nat.ltb Nat.leb]. rewrite indexed_fragments_imap.
    split; [by rewrite length_imap|]. intros i dev Hi.
    rewrite list_lookup_imap, Hi. cbn [fmap option_fmap option_map Nat.add].
    rewrite bool_decide_eq_false_2 by (cbn [length]; lia). reflexivity.
  - split; [reflexivity|]. intros i dev Hi. by rewrite lookup_nil in Hi.
Qed.

(** ** From the command line to the device tuple *)

(** The loop takes exactly the tokens before the first one that begins
    with a prefix. *)
Lemma grab_until_prefix (prefixes value taken rest : list string) :
  Forall (fun tok => begins_with_prefix prefixes tok = false) taken ->
  (rest = [] \/ exists tok rest', rest = tok :: rest'
                  /\ begins_with_prefix prefixes tok = true) ->
  NargsOptions.grab prefixes value (taken ++ rest)%list = ((value ++ taken)%list, rest).
Proof.
  intros Htaken Hrest. revert value.
  induction Htaken as [|tok taken Htok _ IH]; intros value.
  - rewrite app_nil_r. simpl.
    destruct Hrest as [->|(tok & rest' & -> & Htok)]; [done|].
    simpl. rewrite scan_prefixes_spec. simpl. by rewrite Htok.
  - simpl. rewrite scan_prefixes_spec. simpl. rewrite Htok.
    rewrite IH. by rewrite <- app_assoc.
Qed.

(** X10. [--device] followed by plain identifiers, none of which begins
    with an option prefix, and then by another option or by nothing:
    the parser hands exactly these identifiers to the previous
    [process], leaves the rest of the command line in place, and the
    callback returns them as the device tuple.  With [all] as the only
    identifier the callback returns the report of [gpu_count]
    instead. *)
Theorem device_option_end_to_end {State Out gpu_report : Type}
    (get_rargs : State -> list string) (set_rargs : list string -> State -> State)
    (prev_parser_process : list string -> State -> Out)
    (gpu_count : gpu_report) (params_repr : string)
    (prefixes : list string) (value : string) (taken rest : list string)
    (state : State) :
  get_rargs state = (taken ++ rest)%list ->
  Forall (fun tok => begins_with_prefix prefixes tok = false) taken ->
  (rest = [] \/ exists tok rest', rest = tok :: rest'
                  /\ begins_with_prefix prefixes tok = true) ->
  Forall plain_id (value :: taken) ->
  NargsOptions._parser get_rargs set_rargs prev_parser_process prefixes value state
  = prev_parser_process (value :: taken) (set_rargs rest state)
  /\ parse_device_callback gpu_count params_repr (VTuple (value :: taken))
     = if bool_decide (value :: taken = ["all"])
       then Ok (DeviceAll gpu_count)
       else Ok (DeviceTuple (value :: taken)).
Proof.
  intros Hrargs Htaken Hrest Hplain. split.
  - unfold NargsOptions._parser. rewrite Hrargs.
    by rewrite (grab_until_prefix prefixes [value] taken rest Htaken Hrest).
  - case_bool_decide as Hall.
    + injection Hall as -> ->. reflexivity.
    + by apply callback_plain.
Qed.

Lemma device_option_end_to_end_witness :
  NargsOptions._parser (fun s : list string => s) (fun r _ => r)
    (fun v s => (v, s)) ["-"; "--"] "0" ["1"; "--fast"]
  = (["0"; "1"], ["--fast"])
  /\ parse_device_callback 2%nat "device" (VTuple ["0"; "1"])
     = Ok (DeviceTuple ["0"; "1"]).
Proof.
  apply (device_option_end_to_end (fun s : list string => s) (fun r _ => r)
           (fun v s => (v, s)) 2%nat "device" ["-"; "--"] "0" ["1"] ["--fast"]
           ["1"; "--fast"]).
  - reflexivity.
  - repeat constructor.
  - right. by exists "--fast", [].
  - repeat constructor; apply plain_id_dec; reflexivity.
Defined.
